(** * datacontract/lint/resolve.py: resolution of data contracts

    A shallow embedding of the resolver of datacontract-cli and the
    properties of its specification.  The Python module mutates pydantic
    objects in place, raises exceptions and talks to collaborators (YAML
    parser, JSON-schema validator, network, file system); the embedding
    makes each of these explicit:

    - a pydantic object is its attribute dictionary together with
      [model_fields_set], the names that were set explicitly;
    - [Definition] objects live on a heap and are referred to by location,
      so that "the same object" and "a fresh object" are different things;
    - [Field], [Model], [Quality] and the specification own their parts and
      are passed by value; a procedure that mutates its argument returns
      the argument as it is left behind, also when it raises;
    - an exception is a result [Raise e];
    - the collaborators are the fields of an environment [Env]. *)

From Stdlib Require Import ZArith String Ascii.
From stdpp Require Import base option list strings gmap.

Set Warnings "-register-all,-clear-no-such-hyp".

(** ** Values, exceptions, results *)

Definition loc := nat.

(** What [yaml.safe_load] produces, plus [VObj], the reference to a
    [Definition] object that [ref_obj] holds.  Mappings keep their order. *)
Inductive value :=
| VNone
| VBool (b : bool)
| VInt (z : Z)
| VStr (s : string)
| VList (l : list value)
| VDict (d : list (string * value))
| VObj (l : loc).

(** [DataContractException(type, result, name, reason, engine)] and the
    built-in exceptions the module can run into by itself. [ExternalError]
    stands for whatever a collaborator raises. *)
Inductive exn :=
| DataContractException (type result name reason engine : string)
| KeyError (key : string)
| IndexError
| AttributeError (attribute : string)
| ExternalError (class text : string).

Inductive res (A : Type) :=
| Ok (a : A)
| Raise (e : exn).
Arguments Ok {A} a.
Arguments Raise {A} e.

(** The error kinds of the specification, as the module builds them. *)
Definition MissingInput : exn :=
  DataContractException "lint" "failed" "Check that data contract YAML is valid"
    "Data contract needs to be provided" "datacontract".

Definition ParseError (str_e : string) : exn :=
  DataContractException "lint" "failed" "Check that data contract YAML is valid"
    ("Cannot parse YAML. Error: " +:+ str_e) "datacontract".

Definition ValidationError (message : string) : exn :=
  DataContractException "lint" "failed" "Check that data contract YAML is valid"
    message "datacontract".

Definition UnresolvableReference (ref : string) : exn :=
  DataContractException "lint" "failed" "Check that data contract YAML is valid"
    ("Cannot resolve reference " +:+ ref) "datacontract".

Definition MissingReferenceFile (ref : string) : exn :=
  DataContractException "export" "failed" "Check that data contract quality is valid"
    ("Cannot resolve reference " +:+ ref) "datacontract".

(** ** Python primitives *)

(** [bool(v)]: pydantic objects have neither [__bool__] nor [__len__]. *)
Definition truthy (v : value) : bool :=
  match v with
  | VNone => false
  | VBool b => b
  | VInt z => negb (z =? 0)%Z
  | VStr s => negb (String.eqb s EmptyString)
  | VList l => negb (bool_decide (length l = 0))
  | VDict d => negb (bool_decide (length d = 0))
  | VObj _ => true
  end.

(** [s.startswith(p)] *)
Definition startswith (s p : string) : bool := String.prefix p s.

(** [s.split(sep)] for a non-empty [sep]: the occurrences of [sep] are
    taken from left to right and do not overlap.  [skip] counts the
    characters of a matched separator that are still to be dropped, [cur]
    is the piece being collected. *)
Fixpoint split_from (sep s : string) (skip : nat) (cur : string) : list string :=
  match s with
  | EmptyString => [cur]
  | String c s' =>
      match skip with
      | S k => split_from sep s' k cur
      | O =>
          if String.prefix sep s
          then cur :: split_from sep s' (String.length sep - 1) EmptyString
          else split_from sep s' 0 (cur +:+ String c EmptyString)
      end
  end.

Definition split (s sep : string) : list string :=
  split_from sep s 0 EmptyString.

(** [sub in s] *)
Fixpoint contains (s sub : string) : bool :=
  String.prefix sub s
  || match s with
     | EmptyString => false
     | String _ s' => contains s' sub
     end.

(** [key in d] and [d[key]] on a mapping. *)
Fixpoint dict_get (key : string) (d : list (string * value)) : option value :=
  match d with
  | [] => None
  | (k, v) :: d' => if String.eqb k key then Some v else dict_get key d'
  end.

Definition dict_contains (key : string) (d : list (string * value)) : bool :=
  bool_decide (is_Some (dict_get key d)).

(** ** The document model (pydantic) *)

(** An instance of a [pydantic.BaseModel] class: [__dict__] and
    [model_fields_set]. *)
Record BaseModel := {
  attrs : gmap string value;
  model_fields_set : gset string
}.

Definition getattr (o : BaseModel) (name : string) : res value :=
  match attrs o !! name with
  | Some v => Ok v
  | None => Raise (AttributeError name)
  end.

(** [BaseModel.__setattr__] without [validate_assignment]: the value is
    stored and the name is recorded as explicitly set. *)
Definition setattr (o : BaseModel) (name : string) (v : value) : BaseModel :=
  {| attrs := <[name := v]> (attrs o);
     model_fields_set := {[name]} ∪ model_fields_set o |}.

Record Model := {
  fields : list (string * BaseModel)
}.

Record Quality := {
  type_ : option string;
  specification : value
}.

Record DataContractSpecification := {
  models : list (string * Model);
  definitions : gmap string loc;
  quality : option Quality
}.

(** ** The world: heap of [Definition] objects and the log *)

Record world := {
  heap : list BaseModel;
  log : list (string * string)
}.

#[global] Instance BaseModel_inhabited : Inhabited BaseModel :=
  populate {| attrs := ∅; model_fields_set := ∅ |}.

Definition M (A : Type) : Type := world → res A * world.

Definition ret {A} (a : A) : M A := λ w, (Ok a, w).

Definition raise {A} (e : exn) : M A := λ w, (Raise e, w).

Definition bind {A B} (m : M A) (k : A → M B) : M B :=
  λ w, match m w with
       | (Ok a, w') => k a w'
       | (Raise e, w') => (Raise e, w')
       end.

Notation "'let*' x ':=' m 'in' k" := (bind m (λ x, k))
  (at level 10, x name, m at level 100, k at level 200).

Definition lift {A} (r : res A) : M A := λ w, (r, w).

(** [Definition(...)]: a new object at a fresh location. *)
Definition alloc (d : BaseModel) : M loc :=
  λ w, (Ok (length (heap w)), {| heap := heap w ++ [d]; log := log w |}).

Definition deref (l : loc) (w : world) : BaseModel := heap w !!! l.

Definition logging (level message : string) : M unit :=
  λ w, (Ok tt, {| heap := heap w; log := log w ++ [(level, message)] |}).

(** ** Collaborators *)

(** What [fastjsonschema.validate] raises, as [validate] tells it apart. *)
Inductive validate_exn :=
| JsonSchemaValueException (message : string)
| OtherException (str_e : string).

(** The parts of the program that are not in [resolve.py]:
    - [Field_model_fields]: the keys of [Field.model_fields], in order;
    - [new_Definition d]: [Definition( **d )];
    - [new_DataContractSpecification d]: [DataContractSpecification( **d )],
      which puts the definitions it builds on the heap;
    - [fetch_resource], [read_file], [fetch_schema]: the modules
      [lint.urls], [lint.files] and [lint.schema];
    - [yaml_safe_load s]: [inl m] when [yaml.safe_load] raises an
      exception [e] with [str(e) = m];
    - [os_path_exists], [open_read]: [os.path.exists(p)] and
      [open(p, "r").read()];
    - [repr v]: how an f-string prints a value that is not a string. *)
Record Env := {
  Field_model_fields : list string;
  new_Definition : value → res BaseModel;
  new_DataContractSpecification :
    value → list BaseModel → res DataContractSpecification * list BaseModel;
  fetch_resource : string → res string;
  read_file : string → res string;
  fetch_schema : option string → res value;
  yaml_safe_load : string → string + value;
  fastjsonschema_validate : value → value → option validate_exn;
  os_path_exists : value → res bool;
  open_read : value → res string;
  repr : value → string
}.

(** [f"{v}"] *)
Definition format (E : Env) (v : value) : string :=
  match v with
  | VStr s => s
  | _ => repr E v
  end.

(** ** [resolve.py] *)

Section Resolve.
Context (E : Env).

Definition to_yaml (data_contract_str : string) : M value :=
  match yaml_safe_load E data_contract_str with
  | inr yaml_dict => ret yaml_dict
  | inl str_e =>
      let* _ := logging "WARNING" ("Cannot parse YAML. Error: " +:+ str_e) in
      raise (ParseError str_e)
  end.

Definition validate (data_contract_yaml : value) (schema_location : option string)
  : M unit :=
  let* schema := lift (fetch_schema E schema_location) in
  match fastjsonschema_validate E schema data_contract_yaml with
  | None => logging "DEBUG" "YAML data is valid."
  | Some (JsonSchemaValueException message) =>
      let* _ := logging "WARNING"
                  ("Data Contract YAML is invalid. Validation error: " +:+ message) in
      raise (ValidationError message)
  | Some (OtherException str_e) =>
      let* _ := logging "WARNING"
                  ("Data Contract YAML is invalid. Validation error: " +:+ str_e) in
      raise (ValidationError str_e)
  end.

(** [ref] is whatever [field.ref] holds: only a string has [startswith]. *)
Definition resolve_definition_ref (ref : value) (definitions : gmap string loc)
  : M loc :=
  match ref with
  | VStr ref =>
      if startswith ref "http://" || startswith ref "https://" then
        let* definition_str := lift (fetch_resource E ref) in
        let* definition_dict := to_yaml definition_str in
        let* definition := lift (new_Definition E definition_dict) in
        alloc definition
      else if startswith ref "#/definitions/" then
        match split ref "#/definitions/" !! 1 with
        | None => raise IndexError
        | Some definition_name =>
            match definitions !! definition_name with
            | Some definition => ret definition
            | None => raise (KeyError definition_name)
            end
        end
      else raise (UnresolvableReference ref)
  | _ => raise (AttributeError "startswith")
  end.

(** The body of [for field_name in field.model_fields.keys()]. *)
Fixpoint for_field_name (definition : BaseModel) (names : list string)
  (field : BaseModel) : BaseModel * res unit :=
  match names with
  | [] => (field, Ok tt)
  | field_name :: names' =>
      if bool_decide (field_name ∈ model_fields_set definition)
         && negb (bool_decide (field_name ∈ model_fields_set field))
      then match getattr definition field_name with
           | Ok v => for_field_name definition names' (setattr field field_name v)
           | Raise e => (field, Raise e)
           end
      else for_field_name definition names' field
  end.

(** One round of [for field in model.fields.values()]. [skip] is the guard
    [not field.ref and not field.ref_obj], which evaluates [field.ref_obj]
    only when [field.ref] is falsy; [Ok true] is the [continue]. *)
Definition inline_field (definitions : gmap string loc) (field : BaseModel)
  (w : world) : BaseModel * res unit * world :=
  match getattr field "ref" with
  | Raise e => (field, Raise e, w)
  | Ok ref =>
      let skip :=
        if truthy ref then Ok false
        else match getattr field "ref_obj" with
             | Ok ref_obj => Ok (negb (truthy ref_obj))
             | Raise e => Raise e
             end in
      match skip with
      | Raise e => (field, Raise e, w)
      | Ok true => (field, Ok tt, w)
      | Ok false =>
          match resolve_definition_ref ref definitions w with
          | (Raise e, w') => (field, Raise e, w')
          | (Ok definition, w') =>
              let field := setattr field "ref_obj" (VObj definition) in
              let '(field, r) :=
                for_field_name (deref definition w') (Field_model_fields E) field in
              (field, r, w')
          end
      end
  end.

Fixpoint for_field (definitions : gmap string loc)
  (fs : list (string * BaseModel)) (w : world)
  : list (string * BaseModel) * res unit * world :=
  match fs with
  | [] => ([], Ok tt, w)
  | (name, field) :: fs' =>
      match inline_field definitions field w with
      | (field', Raise e, w') => ((name, field') :: fs', Raise e, w')
      | (field', Ok _, w') =>
          let '(fs'', r, w'') := for_field definitions fs' w' in
          ((name, field') :: fs'', r, w'')
      end
  end.

Fixpoint for_model (definitions : gmap string loc)
  (ms : list (string * Model)) (w : world)
  : list (string * Model) * res unit * world :=
  match ms with
  | [] => ([], Ok tt, w)
  | (name, model) :: ms' =>
      match for_field definitions (fields model) w with
      | (fs, Raise e, w') => ((name, {| fields := fs |}) :: ms', Raise e, w')
      | (fs, Ok _, w') =>
          let '(ms'', r, w'') := for_model definitions ms' w' in
          ((name, {| fields := fs |}) :: ms'', r, w'')
      end
  end.

Definition inline_definitions_into_data_contract (spec : DataContractSpecification)
  (w : world) : DataContractSpecification * res unit * world :=
  let '(ms, r, w') := for_model (definitions spec) (models spec) w in
  ({| models := ms; definitions := definitions spec; quality := quality spec |},
   r, w').

Definition get_quality_ref_file (quality_spec : value) : res value :=
  match quality_spec with
  | VDict d =>
      match dict_get "$ref" d with
      | Some ref =>
          match os_path_exists E ref with
          | Raise e => Raise e
          | Ok false => Raise (MissingReferenceFile (format E ref))
          | Ok true =>
              match open_read E ref with
              | Raise e => Raise e
              | Ok content => Ok (VStr content)
              end
          end
      | None => Ok quality_spec
      end
  | _ => Ok quality_spec
  end.

(** [for model, model_quality in specification.items():
       specification[model] = get_quality_ref_file(model_quality)]
    on a mapping, whose keys are distinct. *)
Fixpoint for_model_quality (items : list (string * value))
  : list (string * value) * res unit :=
  match items with
  | [] => ([], Ok tt)
  | (model, model_quality) :: items' =>
      match get_quality_ref_file model_quality with
      | Raise e => (items, Raise e)
      | Ok v =>
          let '(items'', r) := for_model_quality items' in
          ((model, v) :: items'', r)
      end
  end.

Definition resolve_quality_ref (quality : Quality) : Quality * res unit :=
  match specification quality with
  | VDict specification_ =>
      if bool_decide (type_ quality = Some "great-expectations") then
        let '(items, r) := for_model_quality specification_ in
        ({| type_ := type_ quality; specification := VDict items |}, r)
      else if dict_contains "$ref" specification_ then
        match get_quality_ref_file (VDict specification_) with
        | Ok v => ({| type_ := type_ quality; specification := v |}, Ok tt)
        | Raise e => (quality, Raise e)
        end
      else (quality, Ok tt)
  | _ => (quality, Ok tt)
  end.

(** An optional argument is [None] when the caller leaves it out; the
    default of the signature is then taken. *)
Definition resolve_data_contract_from_str (data_contract_str : string)
  (schema_location : option string) (inline_definitions : option bool)
  (include_quality : option bool) : M DataContractSpecification :=
  let inline_definitions := default false inline_definitions in
  let include_quality := default false include_quality in
  let* data_contract_yaml_dict := to_yaml data_contract_str in
  let* _ := validate data_contract_yaml_dict schema_location in
  let* spec := (λ w,
    let '(r, h) := new_DataContractSpecification E data_contract_yaml_dict (heap w) in
    (r, {| heap := h; log := log w |})) in
  let* spec := (λ w,
    if inline_definitions : bool then
      match inline_definitions_into_data_contract spec w with
      | (spec', Ok _, w') => (Ok spec', w')
      | (_, Raise e, w') => (Raise e, w')
      end
    else (Ok spec, w)) in
  match quality spec with
  | Some q =>
      if include_quality : bool then
        match resolve_quality_ref q with
        | (q', Ok _) =>
            ret {| models := models spec; definitions := definitions spec;
                   quality := Some q' |}
        | (_, Raise e) => raise e
        end
      else ret spec
  | None => ret spec
  end.

Definition resolve_data_contract_from_location (location : string)
  (schema_location : option string) (inline_definitions : option bool)
  (include_quality : option bool) : M DataContractSpecification :=
  let inline_definitions := default false inline_definitions in
  let include_quality := default true include_quality in
  let* data_contract_str :=
    lift (if startswith location "http://" || startswith location "https://"
          then fetch_resource E location
          else read_file E location) in
  resolve_data_contract_from_str data_contract_str schema_location
    (Some inline_definitions) (Some include_quality).

Definition resolve_data_contract (data_contract_location : option string)
  (data_contract_str : option string)
  (data_contract : option DataContractSpecification)
  (schema_location : option string) (inline_definitions : option bool)
  : M DataContractSpecification :=
  let inline_definitions := default false inline_definitions in
  match data_contract_location, data_contract_str, data_contract with
  | Some data_contract_location, _, _ =>
      resolve_data_contract_from_location data_contract_location schema_location
        (Some inline_definitions) None
  | None, Some data_contract_str, _ =>
      resolve_data_contract_from_str data_contract_str schema_location
        (Some inline_definitions) None
  | None, None, Some data_contract => ret data_contract
  | None, None, None => raise MissingInput
  end.

End Resolve.

(** ** Fields as pydantic builds them *)

(** [ref] defaults to [None]: a field whose [ref] is truthy has had it set
    explicitly. *)
Definition explicit_ref (field : BaseModel) : Prop :=
  ∀ ref, getattr field "ref" = Ok ref → truthy ref = true →
         "ref" ∈ model_fields_set field.

(** The reference of the field, if it is a string, is not a URL. *)
Definition local_ref (field : BaseModel) : Prop :=
  ∀ ref, getattr field "ref" = Ok (VStr ref) →
         startswith ref "http://" || startswith ref "https://" = false.

(** The field refers to nothing: [ref] and [ref_obj] are both falsy. *)
Definition unreferenced (field : BaseModel) : Prop :=
  ∃ ref ref_obj,
    getattr field "ref" = Ok ref ∧ truthy ref = false
    ∧ getattr field "ref_obj" = Ok ref_obj ∧ truthy ref_obj = false.

(** ** A small world to run the resolver in

    An instance of [Env]: an excerpt of the [Field] and [Definition]
    classes, tables for the network, the disk and the YAML documents that
    occur, a schema that accepts every document. *)

Module Example.

Definition Field_fields : list string :=
  ["ref"; "ref_obj"; "type"; "format"; "required"; "description"; "pii";
   "classification"].

Definition Definition_fields : list string :=
  ["domain"; "name"; "title"; "description"; "type"; "format"; "pii";
   "classification"].

(** The constructor of a pydantic class: every declared attribute starts
    as [None], keys that are not declared are ignored, [$ref] is the alias
    of [ref]. *)
Definition new_object (declared : list string) (d : list (string * value))
  : BaseModel :=
  let given :=
    filter (λ kv, kv.1 ∈ declared)
      ((λ kv : string * value,
          if String.eqb kv.1 "$ref" then ("ref", kv.2) else kv) <$> d) in
  {| attrs := list_to_map given ∪ list_to_map ((λ n, (n, VNone)) <$> declared);
     model_fields_set := list_to_set given.*1 |}.

Definition mapping (v : value) : list (string * value) :=
  match v with VDict d => d | _ => [] end.

Definition build_Definition (v : value) : res BaseModel :=
  match v with
  | VDict d => Ok (new_object Definition_fields d)
  | _ => Raise (ExternalError "TypeError" "argument after ** must be a mapping")
  end.

Definition new_Model (v : value) : Model :=
  {| fields :=
       (λ kv : string * value, (kv.1, new_object Field_fields (mapping kv.2)))
         <$> mapping (default VNone (dict_get "fields" (mapping v))) |}.

Fixpoint new_definitions (ds : list (string * value)) (h : list BaseModel)
  : gmap string loc * list BaseModel :=
  match ds with
  | [] => (∅, h)
  | (name, v) :: ds' =>
      let '(m, h') :=
        new_definitions ds' (h ++ [new_object Definition_fields (mapping v)]) in
      (<[name := length h]> m, h')
  end.

Definition new_Quality (v : value) : Quality :=
  {| type_ := match dict_get "type" (mapping v) with
              | Some (VStr t) => Some t
              | _ => None
              end;
     specification := default VNone (dict_get "specification" (mapping v)) |}.

Definition build_DataContractSpecification (v : value) (h : list BaseModel)
  : res DataContractSpecification * list BaseModel :=
  match v with
  | VDict d =>
      let '(defs, h') :=
        new_definitions (mapping (default VNone (dict_get "definitions" d))) h in
      (Ok {| models :=
               (λ kv : string * value, (kv.1, new_Model kv.2))
                 <$> mapping (default VNone (dict_get "models" d));
             definitions := defs;
             quality := new_Quality <$> dict_get "quality" d |}, h')
  | _ => (Raise (ExternalError "TypeError" "argument after ** must be a mapping"), h)
  end.

Fixpoint table {A} (t : list (string * A)) (key : string) : option A :=
  match t with
  | [] => None
  | (k, a) :: t' => if String.eqb k key then Some a else table t' key
  end.

(** The YAML documents of the examples and what they load to. *)
Definition documents : list (string * value) :=
  [("type: string", VDict [("type", VStr "string")]);
   ("{type: int, format: int64}",
    VDict [("type", VStr "int"); ("format", VStr "int64")]);
   ("quality: {type: SodaCL, specification: {$ref: checks.yaml}}",
    VDict [("quality",
            VDict [("type", VStr "SodaCL");
                   ("specification", VDict [("$ref", VStr "checks.yaml")])])]);
   ("{models: {m1: {fields: {f1: {$ref: '#/definitions/d1'}}}}, definitions: {d1: {type: string}}}",
    VDict [("models",
            VDict [("m1",
                    VDict [("fields",
                            VDict [("f1",
                                    VDict [("$ref", VStr "#/definitions/d1")])])])]);
           ("definitions", VDict [("d1", VDict [("type", VStr "string")])])])].

(** The disk: path and content. *)
Definition files : list (string * string) :=
  [("checks.yaml", "checks for orders: [row_count > 0]");
   ("datacontract.yaml",
    "quality: {type: SodaCL, specification: {$ref: checks.yaml}}")].

Definition not_found {A} (class what : string) : res A :=
  Raise (ExternalError class what).

(** [urls]: what the network serves at the moment. *)
Definition env (urls : list (string * string)) : Env :=
  {| Field_model_fields := Field_fields;
     new_Definition := build_Definition;
     new_DataContractSpecification := build_DataContractSpecification;
     fetch_resource url :=
       from_option Ok (not_found "ConnectionError" url) (table urls url);
     read_file path :=
       from_option Ok (not_found "FileNotFoundError" path) (table files path);
     fetch_schema _ := Ok VNone;
     yaml_safe_load text :=
       from_option inr (inl "could not parse the document") (table documents text);
     fastjsonschema_validate _ _ := None;
     os_path_exists p :=
       match p with
       | VStr path => Ok (bool_decide (is_Some (table files path)))
       | _ => Raise (ExternalError "TypeError" "stat: path should be string")
       end;
     open_read p :=
       match p with
       | VStr path =>
           from_option Ok (not_found "FileNotFoundError" path) (table files path)
       | _ => Raise (ExternalError "TypeError" "expected str")
       end;
     repr _ := "<object>" |}.

Definition empty_world : world := {| heap := []; log := [] |}.

(** A contract whose field [orders.id] refers to the local definition
    [order_id]; the definition also sets [domain], which [Field] does not
    declare. *)
Definition order_id_definition : BaseModel :=
  new_object Definition_fields
    [("domain", VStr "checkout"); ("type", VStr "string")].

Definition order_id_field : BaseModel :=
  new_object Field_fields
    [("$ref", VStr "#/definitions/order_id"); ("description", VStr "key")].

Definition order_id_world : world :=
  {| heap := [order_id_definition]; log := [] |}.

Definition order_id_definitions : gmap string loc := {["order_id" := 0]}.

(** A contract whose field [orders.id] refers to a definition on the
    network, and what the network serves there at first and later. *)
Definition id_url : string := "https://example.com/id.yaml".

Definition remote_spec : DataContractSpecification :=
  {| models :=
       [("orders",
         {| fields := [("id", new_object Field_fields [("$ref", VStr id_url)])] |})];
     definitions := ∅;
     quality := None |}.

Definition served_first : list (string * string) := [(id_url, "type: string")].

Definition served_later : list (string * string) :=
  [(id_url, "{type: int, format: int64}")].

(** [spec.models[model].fields[field].<attribute>] *)
Definition attribute (spec : DataContractSpecification)
  (model field attribute : string) : option value :=
  m ← table (models spec) model;
  f ← table (fields m) field;
  attrs f !! attribute.

(** A field that was built with [ref_obj] and without [ref]. *)
Definition resolved_field : BaseModel :=
  setattr (new_object Field_fields [("type", VStr "string")]) "ref_obj" (VObj 0).

(** A contract without references, one whose second field has a reference
    that cannot be resolved, and one with a field that carries [ref_obj]
    without [ref]. *)
Definition plain_spec : DataContractSpecification :=
  {| models :=
       [("orders",
         {| fields :=
              [("id", new_object Field_fields [("type", VStr "string")]);
               ("note", new_object Field_fields
                          [("$ref", VStr EmptyString);
                           ("description", VStr "free text")])] |})];
     definitions := order_id_definitions;
     quality := None |}.

Definition broken_spec : DataContractSpecification :=
  {| models :=
       [("orders",
         {| fields :=
              [("id", order_id_field);
               ("customer", new_object Field_fields
                              [("$ref", VStr "not-a-valid-ref")]);
               ("shop", order_id_field)] |});
        ("returns", {| fields := [("id", order_id_field)] |})];
     definitions := order_id_definitions;
     quality := None |}.

Definition resolved_spec : DataContractSpecification :=
  {| models := [("orders", {| fields := [("id", resolved_field)] |})];
     definitions := order_id_definitions;
     quality := None |}.

(** A contract whose fields all refer to the local definition [order_id]. *)
Definition local_spec : DataContractSpecification :=
  {| models :=
       [("orders", {| fields := [("id", order_id_field)] |});
        ("returns", {| fields := [("order", order_id_field)] |})];
     definitions := order_id_definitions;
     quality := None |}.

(** An environment like [env], with its own YAML documents and a schema
    that asks for the key [id]. *)
Definition contracts : list (string * value) :=
  [("{id: orders, models: {m1: {fields: {f1: {$ref: not-a-valid-ref}}}}}",
    VDict [("id", VStr "orders");
           ("models",
            VDict [("m1",
                    VDict [("fields",
                            VDict [("f1",
                                    VDict [("$ref", VStr "not-a-valid-ref")])])])])]);
   ("{id: orders, models: {m1: {fields: {f1: {$ref: '#/definitions/d1'}}}}, definitions: {d1: {type: string}}, quality: {type: SodaCL, specification: {$ref: checks.yaml}}}",
    VDict [("id", VStr "orders");
           ("models",
            VDict [("m1",
                    VDict [("fields",
                            VDict [("f1",
                                    VDict [("$ref", VStr "#/definitions/d1")])])])]);
           ("definitions", VDict [("d1", VDict [("type", VStr "string")])]);
           ("quality",
            VDict [("type", VStr "SodaCL");
                   ("specification", VDict [("$ref", VStr "checks.yaml")])])]);
   ("models: {}", VDict [("models", VDict [])])].

Definition requires_id (yaml : value) : option validate_exn :=
  match dict_get "id" (mapping yaml) with
  | Some _ => None
  | None => Some (JsonSchemaValueException "data must contain ['id'] properties")
  end.

Definition strict_env : Env :=
  {| Field_model_fields := Field_fields;
     new_Definition := build_Definition;
     new_DataContractSpecification := build_DataContractSpecification;
     fetch_resource := fetch_resource (env []);
     read_file := read_file (env []);
     fetch_schema _ := Ok VNone;
     yaml_safe_load text :=
       from_option inr (inl "could not parse the document") (table contracts text);
     fastjsonschema_validate _ yaml := requires_id yaml;
     os_path_exists := os_path_exists (env []);
     open_read := open_read (env []);
     repr := repr (env []) |}.

End Example.

(** * Properties *)

(** ** Strings *)

Lemma append_cons (c : ascii) (a b : string) :
  String c a +:+ b = String c (a +:+ b).
Proof. reflexivity. Qed.

Lemma append_empty_r (s : string) : s +:+ EmptyString = s.
Proof. induction s as [|c s IH]; [done | by rewrite append_cons, IH]. Qed.

Lemma append_assoc (a b c : string) : (a +:+ b) +:+ c = a +:+ (b +:+ c).
Proof. induction a as [|x a IH]; [done | by rewrite !append_cons, IH]. Qed.

Lemma prefix_append (p s : string) : String.prefix p (p +:+ s) = true.
Proof.
  induction p as [|c p IH].
  - by destruct s.
  - rewrite append_cons. cbn [String.prefix].
    destruct (ascii_dec c c); [exact IH | congruence].
Qed.

Lemma split_from_skip (sep a b cur : string) :
  split_from sep (a +:+ b) (String.length a) cur = split_from sep b 0 cur.
Proof.
  induction a as [|c a IH]; [done |].
  rewrite append_cons. cbn [split_from String.length]. exact IH.
Qed.

Lemma split_from_no_separator (sep s cur : string) :
  contains s sep = false → split_from sep s 0 cur = [cur +:+ s].
Proof.
  revert cur. induction s as [|c s IH]; intros cur Hs.
  - cbn [split_from]. by rewrite append_empty_r.
  - cbn [contains] in Hs. apply orb_false_iff in Hs as [Hp Hs].
    cbn [split_from]. rewrite Hp, (IH _ Hs), append_assoc. done.
Qed.

(** The piece at index 1 is the whole remainder only when the separator
    does not occur in it again. *)
Lemma split_anchor (sep name : string) :
  sep ≠ EmptyString → contains name sep = false →
  split (sep +:+ name) sep = [EmptyString; name].
Proof.
  intros Hsep Hname. destruct sep as [|c sep]; [done |].
  unfold split. rewrite append_cons. cbn [split_from].
  rewrite <- append_cons, prefix_append. cbn [String.length].
  replace (S (String.length sep) - 1) with (String.length sep) by lia.
  rewrite split_from_skip.
  by rewrite (split_from_no_separator _ _ _ Hname).
Qed.

(** ** Resolution of a definition reference *)

Section ResolveDefinitionRef.
Context (E : Env).

Lemma resolve_local_anchor (name : string) (definitions : gmap string loc)
    (w : world) :
  contains name "#/definitions/" = false →
  resolve_definition_ref E (VStr ("#/definitions/" +:+ name)) definitions w
  = match definitions !! name with
    | Some definition => (Ok definition, w)
    | None => (Raise (KeyError name), w)
    end.
Proof.
  intros Hname. unfold resolve_definition_ref.
  change (startswith ("#/definitions/" +:+ name) "http://") with false.
  change (startswith ("#/definitions/" +:+ name) "https://") with false.
  unfold startswith. rewrite prefix_append. cbn [orb].
  rewrite split_anchor by done. cbn [lookup list_lookup].
  by destruct (definitions !! name).
Qed.

(** A string that is empty is a prefix of nothing the resolver accepts. *)
Lemma resolve_definition_ref_truthy (ref : value) (definitions : gmap string loc)
    (w w' : world) (definition : loc) :
  resolve_definition_ref E ref definitions w = (Ok definition, w') →
  truthy ref = true.
Proof.
  destruct ref as [| | |s| | |]; try discriminate.
  destruct s; [discriminate | done].
Qed.

Lemma to_yaml_heap (text : string) (w w' : world) (r : res value) :
  to_yaml E text w = (r, w') → heap w' = heap w.
Proof.
  unfold to_yaml. destruct (yaml_safe_load E text); by intros [= <- <-].
Qed.

(** Resolution only ever adds objects at the end of the heap. *)
Lemma resolve_definition_ref_heap (ref : value) (definitions : gmap string loc)
    (w w' : world) (r : res loc) :
  resolve_definition_ref E ref definitions w = (r, w') →
  ∃ new, heap w' = heap w ++ new.
Proof.
  assert (Hrefl : ∀ (x : res loc) (u : world),
            (x, u) = (r, w') → ∃ new, heap w' = heap u ++ new).
  { intros x u [= <- <-]. exists []. by rewrite app_nil_r. }
  destruct ref as [| | |s| | |]; try apply Hrefl.
  unfold resolve_definition_ref.
  destruct (startswith s "http://" || startswith s "https://").
  - unfold bind, lift. destruct (fetch_resource E s); [| apply Hrefl].
    destruct (to_yaml E a w) as [[y|e] w1] eqn:Hy;
      apply to_yaml_heap in Hy; rewrite <- Hy; [| apply Hrefl].
    destruct (new_Definition E y); [| apply Hrefl].
    intros [= <- <-]. by eexists.
  - destruct (startswith s "#/definitions/"); [| apply Hrefl].
    destruct (split s "#/definitions/" !! 1); [| apply Hrefl].
    destruct (definitions !! _); apply Hrefl.
Qed.

End ResolveDefinitionRef.

(** ** Merging a definition into a field *)

(** The loop over the declared attribute names never fails on a definition
    whose explicitly set attributes all have a value, and it decides each
    attribute of the field on its own. *)
Lemma for_field_name_spec (definition : BaseModel) (names : list string)
    (field : BaseModel) :
  model_fields_set definition ⊆ dom (attrs definition) →
  ∃ field',
    for_field_name definition names field = (field', Ok tt)
    ∧ (∀ name,
         attrs field' !! name =
           if decide (name ∈ names ∧ name ∈ model_fields_set definition
                      ∧ name ∉ model_fields_set field)
           then attrs definition !! name
           else attrs field !! name)
    ∧ model_fields_set field ⊆ model_fields_set field'.
Proof.
  intros Hdom. revert field.
  induction names as [|n names IH]; intros field.
  - exists field. split; [done |]. split; [| done].
    intros name. case_decide as H; [| done]. destruct H as [H _].
    by apply elem_of_nil in H.
  - cbn [for_field_name].
    destruct (bool_decide (n ∈ model_fields_set definition)) eqn:Hd;
      [destruct (bool_decide (n ∈ model_fields_set field)) eqn:Hf |].
    + apply bool_decide_eq_true in Hf.
      destruct (IH field) as (field' & Hrun & Hattrs & Hset).
      exists field'. cbn [andb negb]. split; [done |]. split; [| done].
      intros name. rewrite Hattrs.
      repeat case_decide; try done; set_solver.
    + apply bool_decide_eq_true in Hd. apply bool_decide_eq_false in Hf.
      cbn [andb negb]. unfold getattr.
      destruct (attrs definition !! n) as [v|] eqn:Hv.
      2:{ apply not_elem_of_dom in Hv. set_solver. }
      destruct (IH (setattr field n v)) as (field' & Hrun & Hattrs & Hset).
      exists field'. split; [done |]. split.
      * intros name. rewrite Hattrs. cbn [setattr attrs model_fields_set].
        destruct (decide (name = n)) as [->|Hne].
        -- rewrite lookup_insert_eq, Hv.
           repeat case_decide; try done; set_solver.
        -- rewrite lookup_insert_ne by done.
           repeat case_decide; try done; set_solver.
      * cbn [setattr model_fields_set] in Hset. set_solver.
    + apply bool_decide_eq_false in Hd.
      destruct (IH field) as (field' & Hrun & Hattrs & Hset).
      exists field'. cbn [andb]. split; [done |]. split; [| done].
      intros name. rewrite Hattrs.
      repeat case_decide; try done; set_solver.
Qed.

Section Inline.
Context (E : Env).

(** C2 (amended): for a field whose [ref] resolves to a definition,
    inlining succeeds, stores the definition in [ref_obj], and decides every
    other attribute by name: an attribute that [Field] declares, that the
    definition sets explicitly and the field does not, takes the
    definition's value; an attribute the field sets explicitly, one the
    definition does not set, and one that [Field] does not declare keep the
    field's value. *)
Theorem inline_field_merges_declared_attributes
    (definitions : gmap string loc) (field : BaseModel) (w w' : world)
    (ref : value) (l : loc) :
  getattr field "ref" = Ok ref →
  resolve_definition_ref E ref definitions w = (Ok l, w') →
  model_fields_set (deref l w') ⊆ dom (attrs (deref l w')) →
  ∃ field',
    inline_field E definitions field w = (field', Ok tt, w')
    ∧ getattr field' "ref_obj" = Ok (VObj l)
    ∧ ∀ name, name ≠ "ref_obj" →
        (name ∈ Field_model_fields E →
         name ∈ model_fields_set (deref l w') →
         name ∉ model_fields_set field →
         getattr field' name = getattr (deref l w') name)
        ∧ (name ∈ model_fields_set field →
           getattr field' name = getattr field name)
        ∧ (name ∉ model_fields_set (deref l w') →
           getattr field' name = getattr field name)
        ∧ (name ∉ Field_model_fields E →
           getattr field' name = getattr field name).
Proof.
  intros Href Hres Hdom. unfold inline_field.
  rewrite Href, (resolve_definition_ref_truthy _ _ _ _ _ _ Hres), Hres.
  destruct (for_field_name_spec (deref l w') (Field_model_fields E)
              (setattr field "ref_obj" (VObj l)) Hdom)
    as (field' & Hrun & Hattrs & _).
  rewrite Hrun. exists field'. split; [done |].
  unfold getattr. cbn [setattr attrs model_fields_set] in Hattrs. split.
  - rewrite Hattrs. case_decide as H; [set_solver |].
    by rewrite lookup_insert_eq.
  - intros name Hname. rewrite Hattrs.
    repeat split; intros; case_decide;
      rewrite ?lookup_insert_ne by done; try done; set_solver.
Qed.

End Inline.

Lemma inline_field_merges_declared_attributes_witness :
  ∃ field',
    inline_field (Example.env []) Example.order_id_definitions
      Example.order_id_field Example.order_id_world
    = (field', Ok tt, Example.order_id_world)
    ∧ getattr field' "ref_obj" = Ok (VObj 0)
    ∧ getattr field' "type" = Ok (VStr "string")
    ∧ getattr field' "description" = Ok (VStr "key").
Proof.
  destruct (inline_field_merges_declared_attributes (Example.env [])
              Example.order_id_definitions Example.order_id_field
              Example.order_id_world Example.order_id_world
              (VStr "#/definitions/order_id") 0)
    as (field' & Hrun & Hobj & Hattrs).
  - reflexivity.
  - vm_compute. reflexivity.
  - apply (bool_decide_unpack _). vm_compute. exact I.
  - exists field'. split; [exact Hrun |]. split; [exact Hobj |]. split.
    + destruct (Hattrs "type") as (H & _); [done |]. rewrite H.
      * reflexivity.
      * apply (bool_decide_unpack _). vm_compute. exact I.
      * apply (bool_decide_unpack _). vm_compute. exact I.
      * apply (bool_decide_unpack _). vm_compute. exact I.
    + destruct (Hattrs "description") as (_ & H & _); [done |]. rewrite H.
      * reflexivity.
      * apply (bool_decide_unpack _). vm_compute. exact I.
Defined.

(** C2 (as stated) fails: [domain] is set by the definition alone, and the
    field does not have it after inlining. *)
Lemma inline_field_leaves_undeclared_attribute :
  ∃ field',
    inline_field (Example.env []) Example.order_id_definitions
      Example.order_id_field Example.order_id_world
    = (field', Ok tt, Example.order_id_world)
    ∧ "domain" ∈ model_fields_set Example.order_id_definition
    ∧ ("domain" ∉ model_fields_set Example.order_id_field)
    ∧ getattr Example.order_id_definition "domain" = Ok (VStr "checkout")
    ∧ getattr field' "domain" = Raise (AttributeError "domain").
Proof.
  eexists. split; [vm_compute; reflexivity |].
  repeat split; try (apply (bool_decide_unpack _); vm_compute; exact I).
Qed.

(** ** Resolution of a definition reference: the three kinds of reference *)

(** C3: a reference string that starts with neither [http://] nor
    [https://] nor [#/definitions/] makes [resolve_definition_ref] raise the
    [DataContractException] of kind lint whose reason is
    "Cannot resolve reference " followed by that very string; no definition
    is returned and the world is left as it was. *)
Theorem resolve_definition_ref_unresolvable (E : Env) (ref : string)
    (definitions : gmap string loc) (w : world) :
  startswith ref "http://" = false →
  startswith ref "https://" = false →
  startswith ref "#/definitions/" = false →
  resolve_definition_ref E (VStr ref) definitions w
  = (Raise (DataContractException "lint" "failed"
              "Check that data contract YAML is valid"
              ("Cannot resolve reference " +:+ ref) "datacontract"), w).
Proof.
  intros Hhttp Hhttps Hlocal. unfold resolve_definition_ref.
  rewrite Hhttp, Hhttps. cbn [orb]. by rewrite Hlocal.
Qed.

Lemma resolve_definition_ref_unresolvable_witness :
  resolve_definition_ref (Example.env []) (VStr "not-a-valid-ref")
    Example.order_id_definitions Example.order_id_world
  = (Raise (UnresolvableReference "not-a-valid-ref"), Example.order_id_world).
Proof.
  apply (resolve_definition_ref_unresolvable (Example.env []) "not-a-valid-ref");
    reflexivity.
Defined.

(** C5 (the code at the failing input): the name looked up is the piece
    between the leading [#/definitions/] and the next one, not the whole
    remainder.  The reference to the definition [a#/definitions/b], which is
    in the mapping, raises [KeyError] for [a]. *)
Theorem resolve_local_anchor_cuts_name (E : Env) (l : loc) (w : world) :
  ({["a#/definitions/b" := l]} : gmap string loc) !! "a#/definitions/b" = Some l
  ∧ resolve_definition_ref E (VStr "#/definitions/a#/definitions/b")
      {["a#/definitions/b" := l]} w
    = (Raise (KeyError "a"), w).
Proof. split; [apply lookup_singleton_eq | by vm_compute]. Qed.

(** C9 (the code at the failing input): for the same reason the reference
    to [a#/definitions/b], which is not in the mapping, raises nothing and
    resolves to the definition [a]. *)
Theorem resolve_absent_name_without_error (E : Env) (l : loc) (w : world) :
  ({["a" := l]} : gmap string loc) !! "a#/definitions/b" = None
  ∧ resolve_definition_ref E (VStr "#/definitions/a#/definitions/b")
      {["a" := l]} w
    = (Ok l, w).
Proof. split; [by apply lookup_singleton_ne | by vm_compute]. Qed.

(** ** Inlining as a whole: what it leaves alone *)

Section InlineFrame.
Context (E : Env).

Lemma inline_field_heap (definitions : gmap string loc) (field field' : BaseModel)
    (w w' : world) (r : res unit) :
  inline_field E definitions field w = (field', r, w') →
  ∃ new, heap w' = heap w ++ new.
Proof.
  assert (Hrefl : ∀ (f : BaseModel) (x : res unit),
            (f, x, w) = (field', r, w') → ∃ new, heap w' = heap w ++ new).
  { intros f x [= _ _ <-]. exists []. by rewrite app_nil_r. }
  unfold inline_field.
  destruct (getattr field "ref") as [ref|e]; [| apply Hrefl].
  destruct (if truthy ref then _ else _) as [[]|]; try apply Hrefl.
  destruct (resolve_definition_ref E ref definitions w) as [[l|e] w1] eqn:Hres;
    apply resolve_definition_ref_heap in Hres as [new Hnew].
  - destruct (for_field_name _ _ _). intros [= _ _ <-]. by exists new.
  - intros [= _ _ <-]. by exists new.
Qed.

Lemma for_field_heap (definitions : gmap string loc)
    (fs fs' : list (string * BaseModel)) (w w' : world) (r : res unit) :
  for_field E definitions fs w = (fs', r, w') →
  ∃ new, heap w' = heap w ++ new.
Proof.
  revert w fs' r w'.
  induction fs as [|[name field] fs IH]; intros w fs' r w' H;
    cbn [for_field] in H.
  - injection H as <- <- <-. exists []. by rewrite app_nil_r.
  - destruct (inline_field E definitions field w) as [[f1 r1] w1] eqn:Hf.
    apply inline_field_heap in Hf as [n1 Hn1]. destruct r1.
    + destruct (for_field E definitions fs w1) as [[fs2 r2] w2] eqn:Hfs.
      apply IH in Hfs as [n2 Hn2]. injection H as <- <- <-.
      exists (n1 ++ n2). by rewrite Hn2, Hn1, app_assoc.
    + injection H as <- <- <-. by exists n1.
Qed.

Lemma for_model_heap (definitions : gmap string loc)
    (ms ms' : list (string * Model)) (w w' : world) (r : res unit) :
  for_model E definitions ms w = (ms', r, w') →
  ∃ new, heap w' = heap w ++ new.
Proof.
  revert w ms' r w'.
  induction ms as [|[name model] ms IH]; intros w ms' r w' H;
    cbn [for_model] in H.
  - injection H as <- <- <-. exists []. by rewrite app_nil_r.
  - destruct (for_field E definitions (fields model) w) as [[f1 r1] w1] eqn:Hf.
    apply for_field_heap in Hf as [n1 Hn1]. destruct r1.
    + destruct (for_model E definitions ms w1) as [[ms2 r2] w2] eqn:Hms.
      apply IH in Hms as [n2 Hn2]. injection H as <- <- <-.
      exists (n1 ++ n2). by rewrite Hn2, Hn1, app_assoc.
    + injection H as <- <- <-. by exists n1.
Qed.

(** X6: inlining never writes to a [Definition]: the mapping of
    definitions and the quality block are the ones of the input, and every
    object that was on the heap is still there, unchanged, whether inlining
    succeeds or raises. *)
Lemma inline_definitions_frame (spec spec' : DataContractSpecification)
    (w w' : world) (r : res unit) :
  inline_definitions_into_data_contract E spec w = (spec', r, w') →
  definitions spec' = definitions spec
  ∧ quality spec' = quality spec
  ∧ ∀ l definition, heap w !! l = Some definition →
                    heap w' !! l = Some definition.
Proof.
  unfold inline_definitions_into_data_contract.
  destruct (for_model E (definitions spec) (models spec) w)
    as [[ms r1] w1] eqn:Hms.
  apply for_model_heap in Hms as [new Hnew]. intros [= <- <- <-].
  repeat split. intros l d Hl. rewrite Hnew. by apply lookup_app_l_Some.
Qed.

(** A local anchor whose name holds no further [#/definitions/] resolves
    to the location stored in the mapping: the object itself, nothing is
    allocated or copied. *)
Lemma resolve_local_anchor_no_copy (name : string)
    (definitions : gmap string loc) (l : loc) (w : world) :
  contains name "#/definitions/" = false →
  definitions !! name = Some l →
  resolve_definition_ref E (VStr ("#/definitions/" +:+ name)) definitions w
  = (Ok l, w).
Proof. intros Hname Hl. by rewrite resolve_local_anchor, Hl. Qed.

Lemma resolve_local_anchor_absent (name : string)
    (definitions : gmap string loc) (w : world) :
  contains name "#/definitions/" = false →
  definitions !! name = None →
  resolve_definition_ref E (VStr ("#/definitions/" +:+ name)) definitions w
  = (Raise (KeyError name), w).
Proof. intros Hname Hl. by rewrite resolve_local_anchor, Hl. Qed.

End InlineFrame.

(** ** Quality references *)

(** C4: file-reference resolution of a quality payload.  For a mapping
    with a [$ref] key: when the referenced path does not exist the result
    is the [DataContractException] of kind export whose reason names the
    path, when it exists and reads as [content] the result is [content]; a
    payload that is not a mapping with a [$ref] key is returned as it is. *)
Theorem get_quality_ref_file_spec (E : Env) :
  (∀ d ref,
     dict_get "$ref" d = Some ref →
     os_path_exists E ref = Ok false →
     get_quality_ref_file E (VDict d)
     = Raise (DataContractException "export" "failed"
                "Check that data contract quality is valid"
                ("Cannot resolve reference " +:+ format E ref) "datacontract"))
  ∧ (∀ d ref content,
       dict_get "$ref" d = Some ref →
       os_path_exists E ref = Ok true →
       open_read E ref = Ok content →
       get_quality_ref_file E (VDict d) = Ok (VStr content))
  ∧ (∀ quality_spec,
       (∀ d, quality_spec = VDict d → dict_get "$ref" d = None) →
       get_quality_ref_file E quality_spec = Ok quality_spec).
Proof.
  repeat split.
  - intros d ref Hget Hexists. cbn [get_quality_ref_file].
    by rewrite Hget, Hexists.
  - intros d ref content Hget Hexists Hread. cbn [get_quality_ref_file].
    by rewrite Hget, Hexists, Hread.
  - intros quality_spec Hnone. destruct quality_spec as [| | | | |d|]; try done.
    cbn [get_quality_ref_file]. by rewrite (Hnone d eq_refl).
Qed.

Lemma get_quality_ref_file_spec_witness :
  get_quality_ref_file (Example.env []) (VDict [("$ref", VStr "missing.txt")])
  = Raise (MissingReferenceFile "missing.txt")
  ∧ get_quality_ref_file (Example.env []) (VDict [("$ref", VStr "checks.yaml")])
    = Ok (VStr "checks for orders: [row_count > 0]")
  ∧ get_quality_ref_file (Example.env []) (VDict [("row_count", VInt 1)])
    = Ok (VDict [("row_count", VInt 1)]).
Proof.
  destruct (get_quality_ref_file_spec (Example.env []))
    as (Hmissing & Hfile & Hother).
  split; [| split].
  - apply (Hmissing _ (VStr "missing.txt")); reflexivity.
  - apply (Hfile _ (VStr "checks.yaml")); reflexivity.
  - apply Hother. intros d [= <-]. reflexivity.
Defined.

(** X9: [resolve_quality_ref] on a quality block that is not of the
    per-model kind and whose specification is a mapping with a [$ref] key:
    when the path does not exist the call raises and the block is as it
    was; when the file reads as [content] the specification of the block
    becomes [content] and its type stays. *)
Lemma resolve_quality_ref_file (E : Env) (quality : Quality)
    (d : list (string * value)) (ref : value) :
  specification quality = VDict d →
  type_ quality ≠ Some "great-expectations" →
  dict_get "$ref" d = Some ref →
  (os_path_exists E ref = Ok false →
   resolve_quality_ref E quality
   = (quality, Raise (MissingReferenceFile (format E ref))))
  ∧ (∀ content,
       os_path_exists E ref = Ok true → open_read E ref = Ok content →
       resolve_quality_ref E quality
       = ({| type_ := type_ quality; specification := VStr content |}, Ok tt)).
Proof.
  intros Hspec Htype Hget. unfold resolve_quality_ref, dict_contains.
  rewrite Hspec, bool_decide_eq_false_2 by done.
  rewrite bool_decide_eq_true_2 by (rewrite Hget; eauto).
  cbn [get_quality_ref_file]. rewrite Hget. split.
  - by intros ->.
  - by intros content -> ->.
Qed.

(** ** The entry points *)

(** C6: with none of the three inputs the generic entry point raises the
    [DataContractException] "Data contract needs to be provided" and
    returns no specification. *)
Theorem resolve_data_contract_missing_input (E : Env)
    (schema_location : option string) (inline_definitions : option bool)
    (w : world) :
  resolve_data_contract E None None None schema_location inline_definitions w
  = (Raise (DataContractException "lint" "failed"
              "Check that data contract YAML is valid"
              "Data contract needs to be provided" "datacontract"), w).
Proof. reflexivity. Qed.

(** C7: a pre-built specification, given alone, comes back as it is,
    whatever [schema_location] and [inline_definitions] are; the world is
    untouched: nothing is logged, nothing is put on the heap. *)
Theorem resolve_data_contract_prebuilt (E : Env)
    (data_contract : DataContractSpecification)
    (schema_location : option string) (inline_definitions : option bool)
    (w : world) :
  resolve_data_contract E None None (Some data_contract) schema_location
    inline_definitions w
  = (Ok data_contract, w).
Proof. reflexivity. Qed.

(** C10: the inputs are tried in the order location, string, pre-built
    specification; the first that is given decides, and the others are not
    looked at, so that giving several raises nothing by itself. *)
Theorem resolve_data_contract_precedence (E : Env) (location text : string)
    (prebuilt : DataContractSpecification)
    (data_contract_str : option string)
    (data_contract : option DataContractSpecification)
    (schema_location : option string) (inline_definitions : option bool) :
  resolve_data_contract E (Some location) data_contract_str data_contract
    schema_location inline_definitions
  = resolve_data_contract_from_location E location schema_location
      (Some (default false inline_definitions)) None
  ∧ resolve_data_contract E None (Some text) data_contract
      schema_location inline_definitions
    = resolve_data_contract_from_str E text schema_location
        (Some (default false inline_definitions)) None
  ∧ resolve_data_contract E None None (Some prebuilt)
      schema_location inline_definitions
    = ret prebuilt.
Proof. done. Qed.

(** The end-to-end scenario: a field that refers to the local definition
    [d1] has the type of [d1] after resolution with [inline_definitions]. *)
Example resolve_inlines_local_definition :
  ∃ spec w,
    resolve_data_contract (Example.env []) None
      (Some "{models: {m1: {fields: {f1: {$ref: '#/definitions/d1'}}}}, definitions: {d1: {type: string}}}")
      None None (Some true) Example.empty_world = (Ok spec, w)
    ∧ Example.attribute spec "m1" "f1" "type" = Some (VStr "string")
    ∧ Example.attribute spec "m1" "f1" "ref_obj" = Some (VObj 0)
    ∧ definitions spec !! "d1" = Some 0.
Proof.
  eexists _, _. split; [vm_compute; reflexivity |]. repeat split.
Qed.

(** ** The defaults of the optional arguments *)

Lemma resolve_data_contract_from_str_defaults (E : Env) (text : string)
    (schema_location : option string) :
  resolve_data_contract_from_str E text schema_location None None
  = resolve_data_contract_from_str E text schema_location (Some false)
      (Some false).
Proof. reflexivity. Qed.

Lemma resolve_data_contract_from_location_defaults (E : Env) (location : string)
    (schema_location : option string) :
  resolve_data_contract_from_location E location schema_location None None
  = resolve_data_contract_from_location E location schema_location (Some false)
      (Some true).
Proof. reflexivity. Qed.

(** C8: [include_quality] is on by default when resolving from a
    location and off by default when resolving from a string.  For a
    document that loads, validates and builds to [spec] with a quality
    block [q], the location entry point with default options hands [q] to
    [resolve_quality_ref] and returns what that leaves (or raises what it
    raises), while the string entry point with default options returns
    [spec] with [q] as it was built. *)
Theorem include_quality_defaults (E : Env) (location text : string)
    (schema_location : option string) (w : world) (yaml schema : value)
    (spec : DataContractSpecification) (h' : list BaseModel) (q : Quality) :
  (if startswith location "http://" || startswith location "https://"
   then fetch_resource E location else read_file E location) = Ok text →
  yaml_safe_load E text = inr yaml →
  fetch_schema E schema_location = Ok schema →
  fastjsonschema_validate E schema yaml = None →
  new_DataContractSpecification E yaml (heap w) = (Ok spec, h') →
  quality spec = Some q →
  let w' := {| heap := h'; log := log w ++ [("DEBUG", "YAML data is valid.")] |} in
  resolve_data_contract_from_location E location schema_location None None w
  = (match resolve_quality_ref E q with
     | (q', Ok _) =>
         Ok {| models := models spec; definitions := definitions spec;
               quality := Some q' |}
     | (_, Raise e) => Raise e
     end, w')
  ∧ resolve_data_contract_from_str E text schema_location None None w
    = (Ok spec, w').
Proof.
  intros Hload Hyaml Hschema Hvalid Hbuild Hq w'.
  unfold resolve_data_contract_from_location, resolve_data_contract_from_str,
    to_yaml, validate, bind, lift, ret, raise, logging.
  rewrite Hload, Hyaml, Hschema, Hvalid. cbn [heap log].
  rewrite Hbuild. cbv beta iota delta [default from_option id].
  rewrite Hq. split; [| done].
  by destruct (resolve_quality_ref E q) as [q' [[]|e]].
Qed.

Lemma include_quality_defaults_witness :
  (∃ spec w',
     resolve_data_contract_from_location (Example.env []) "datacontract.yaml"
       None None None Example.empty_world = (Ok spec, w')
     ∧ specification <$> quality spec
       = Some (VStr "checks for orders: [row_count > 0]"))
  ∧ (∃ spec w',
       resolve_data_contract_from_str (Example.env [])
         "quality: {type: SodaCL, specification: {$ref: checks.yaml}}"
         None None None Example.empty_world = (Ok spec, w')
       ∧ specification <$> quality spec
         = Some (VDict [("$ref", VStr "checks.yaml")])).
Proof.
  destruct (include_quality_defaults (Example.env []) "datacontract.yaml"
              "quality: {type: SodaCL, specification: {$ref: checks.yaml}}"
              None Example.empty_world
              (VDict [("quality",
                       VDict [("type", VStr "SodaCL");
                              ("specification",
                               VDict [("$ref", VStr "checks.yaml")])])])
              VNone
              {| models := []; definitions := ∅;
                 quality := Some {| type_ := Some "SodaCL";
                                    specification :=
                                      VDict [("$ref", VStr "checks.yaml")] |} |}
              [] {| type_ := Some "SodaCL";
                    specification := VDict [("$ref", VStr "checks.yaml")] |})
    as [Hlocation Hstr]; try reflexivity.
  split.
  - eexists _, _. split; [exact Hlocation | reflexivity].
  - eexists _, _. split; [exact Hstr | reflexivity].
Defined.

(** ** Inlining twice, local anchors *)

Section InlineAgain.
Context (E : Env).

(** The merge loop only adds names to [model_fields_set] and never touches
    an attribute that is explicitly set. *)
Lemma for_field_name_keeps (definition : BaseModel) (names : list string)
    (field field' : BaseModel) (r : res unit) :
  for_field_name definition names field = (field', r) →
  model_fields_set field ⊆ model_fields_set field'
  ∧ ∀ name, name ∈ model_fields_set field →
            attrs field' !! name = attrs field !! name.
Proof.
  revert field. induction names as [|n names IH]; intros field H;
    cbn [for_field_name] in H.
  - by injection H as <- <-.
  - destruct (bool_decide (n ∈ model_fields_set definition)
              && negb (bool_decide (n ∈ model_fields_set field))) eqn:Hc.
    + apply andb_true_iff in Hc as [_ Hf]. apply negb_true_iff in Hf.
      apply bool_decide_eq_false in Hf.
      destruct (getattr definition n) as [v|e].
      * apply IH in H as [Hset Hattrs].
        cbn [setattr attrs model_fields_set] in Hset, Hattrs.
        split; [set_solver |]. intros name Hname.
        rewrite Hattrs by set_solver.
        apply lookup_insert_ne. set_solver.
      * by injection H as <- <-.
    + by apply IH in H.
Qed.

(** Running the merge loop again on its own result changes nothing and
    ends the same way. *)
Lemma for_field_name_again (definition : BaseModel) (names : list string)
    (field field' : BaseModel) (r : res unit) :
  for_field_name definition names field = (field', r) →
  for_field_name definition names field' = (field', r).
Proof.
  revert field. induction names as [|n names IH]; intros field H;
    cbn [for_field_name] in H.
  - by injection H as <- <-.
  - destruct (bool_decide (n ∈ model_fields_set definition)) eqn:Hd;
      [destruct (bool_decide (n ∈ model_fields_set field)) eqn:Hf |];
      cbn [andb negb] in H.
    + apply bool_decide_eq_true in Hf.
      pose proof (for_field_name_keeps _ _ _ _ _ H) as [Hset _].
      cbn [for_field_name].
      rewrite Hd, (bool_decide_eq_true_2 _ (Hset _ Hf)). cbn [andb negb].
      by apply IH in H.
    + destruct (getattr definition n) as [v|e] eqn:Hv.
      * pose proof (for_field_name_keeps _ _ _ _ _ H) as [Hset _].
        cbn [setattr model_fields_set] in Hset.
        cbn [for_field_name]. rewrite Hd.
        rewrite bool_decide_eq_true_2 by set_solver. cbn [andb negb].
        by apply IH in H.
      * injection H as <- <-. cbn [for_field_name].
        by rewrite Hd, Hf, Hv.
    + cbn [for_field_name]. rewrite Hd. cbn [andb]. by apply IH in H.
Qed.

(** A reference that is not a URL is resolved without a look at the
    world. *)
Lemma resolve_definition_ref_local (definitions : gmap string loc)
    (ref : string) :
  startswith ref "http://" || startswith ref "https://" = false →
  ∃ x, ∀ w, resolve_definition_ref E (VStr ref) definitions w = (x, w).
Proof.
  intros Hlocal. unfold resolve_definition_ref. rewrite Hlocal.
  destruct (startswith ref "#/definitions/"); [| by eexists].
  destruct (split ref "#/definitions/" !! 1); [| by eexists].
  destruct (definitions !! _); by eexists.
Qed.

Lemma setattr_same (o : BaseModel) (name : string) (v : value) :
  attrs o !! name = Some v → name ∈ model_fields_set o →
  setattr o name v = o.
Proof.
  intros Hv Hset. destruct o as [a s]. unfold setattr.
  cbn [attrs model_fields_set] in *. f_equal.
  - by apply insert_id.
  - set_solver.
Qed.

(** For a field whose reference is local, a second visit by the loop
    leaves the field and the world as the first visit left them and ends
    the same way: the field is resolved again, to the same object, and the
    merge finds every attribute of the definition already set. *)
Lemma inline_field_again (definitions : gmap string loc)
    (field field' : BaseModel) (w w' : world) (r : res unit) :
  local_ref field → explicit_ref field →
  inline_field E definitions field w = (field', r, w') →
  w' = w ∧ inline_field E definitions field' w = (field', r, w).
Proof.
  intros Hlocal Hexplicit H. pose proof H as H0. unfold inline_field in H.
  assert (Hsame : ∀ x, (field, x, w) = (field', r, w') →
            w' = w ∧ inline_field E definitions field' w = (field', r, w)).
  { intros x [= <- <- <-]. by split. }
  destruct (getattr field "ref") as [ref|e] eqn:Href; [| by apply Hsame in H].
  destruct (truthy ref) eqn:Ht.
  - destruct ref as [| | |s| | |]; try by apply Hsame in H.
    destruct (resolve_definition_ref_local definitions s (Hlocal _ Href))
      as [x Hx].
    rewrite Hx in H. destruct x as [l|e]; [| by apply Hsame in H].
    destruct (for_field_name _ _ _) as [f1 r1] eqn:Hrun.
    injection H as <- <- <-. split; [done |].
    pose proof (for_field_name_keeps _ _ _ _ _ Hrun) as [Hset Hattrs].
    cbn [setattr attrs model_fields_set] in Hset, Hattrs.
    assert (Href' : getattr f1 "ref" = Ok (VStr s)).
    { unfold getattr in *. rewrite Hattrs.
      - by rewrite lookup_insert_ne.
      - specialize (Hexplicit _ Href Ht). set_solver. }
    unfold inline_field. rewrite Href'. cbn [truthy] in Ht |- *.
    rewrite Ht, Hx, setattr_same.
    + by rewrite (for_field_name_again _ _ _ _ _ Hrun).
    + rewrite Hattrs by set_solver. apply lookup_insert_eq.
    + set_solver.
  - destruct (getattr field "ref_obj") as [ref_obj|e] eqn:Hobj;
      [| by apply Hsame in H].
    destruct (truthy ref_obj); cbn [negb] in H; [| by apply Hsame in H].
    destruct ref as [| | |s| | |]; try by apply Hsame in H.
    destruct s; [by apply Hsame in H | discriminate Ht].
Qed.

Lemma for_field_again (definitions : gmap string loc)
    (fs fs' : list (string * BaseModel)) (w w' : world) (r : res unit) :
  Forall (λ kv, local_ref kv.2 ∧ explicit_ref kv.2) fs →
  for_field E definitions fs w = (fs', r, w') →
  w' = w ∧ for_field E definitions fs' w = (fs', r, w).
Proof.
  intros Hfs. revert fs' r w'.
  induction Hfs as [|[name field] fs [Hlocal Hexplicit] _ IH];
    intros fs' r w' H; cbn [for_field] in H.
  - by injection H as <- <- <-.
  - destruct (inline_field E definitions field w) as [[f1 r1] w1] eqn:Hf.
    apply inline_field_again in Hf as [-> Hf]; [| done..].
    destruct r1 as [[]|e].
    + destruct (for_field E definitions fs w) as [[fs2 r2] w2] eqn:Hrest.
      destruct (IH _ _ _ eq_refl) as [-> Hrest']. injection H as <- <- <-.
      split; [done |]. cbn [for_field]. by rewrite Hf, Hrest'.
    + injection H as <- <- <-. split; [done |]. cbn [for_field].
      by rewrite Hf.
Qed.

Lemma for_model_again (definitions : gmap string loc)
    (ms ms' : list (string * Model)) (w w' : world) (r : res unit) :
  Forall (λ m, Forall (λ kv, local_ref kv.2 ∧ explicit_ref kv.2) (fields m.2))
    ms →
  for_model E definitions ms w = (ms', r, w') →
  w' = w ∧ for_model E definitions ms' w = (ms', r, w).
Proof.
  intros Hms. revert ms' r w'.
  induction Hms as [|[name model] ms Hmodel _ IH];
    intros ms' r w' H; cbn [for_model] in H.
  - by injection H as <- <- <-.
  - destruct (for_field E definitions (fields model) w) as [[f1 r1] w1] eqn:Hf.
    apply for_field_again in Hf as [-> Hf]; [| done].
    destruct r1 as [[]|e].
    + destruct (for_model E definitions ms w) as [[ms2 r2] w2] eqn:Hrest.
      destruct (IH _ _ _ eq_refl) as [-> Hrest']. injection H as <- <- <-.
      split; [done |]. cbn [for_model fields]. by rewrite Hf, Hrest'.
    + injection H as <- <- <-. split; [done |]. cbn [for_model fields].
      by rewrite Hf.
Qed.

(** X7: what holds of two runs.  On a specification whose references are
    all local (none is a URL) and explicitly set, the first run leaves the
    world as it was, and a second run gives back the specification of the
    first run with the same outcome. *)
Lemma inline_definitions_again_local (spec spec' : DataContractSpecification)
    (w w' : world) (r : res unit) :
  Forall (λ m, Forall (λ kv, local_ref kv.2 ∧ explicit_ref kv.2) (fields m.2))
    (models spec) →
  inline_definitions_into_data_contract E spec w = (spec', r, w') →
  w' = w ∧ inline_definitions_into_data_contract E spec' w = (spec', r, w).
Proof.
  intros Hspec. unfold inline_definitions_into_data_contract.
  destruct (for_model E (definitions spec) (models spec) w)
    as [[ms r1] w1] eqn:Hms.
  apply for_model_again in Hms as [-> Hms]; [| done].
  intros [= <- <- <-]. split; [done |].
  cbn [models definitions quality]. by rewrite Hms.
Qed.

End InlineAgain.

(** ** Inlining twice, a remote definition *)

(** C1 (the code at the failing input): a field whose [ref_obj] is
    populated is not skipped.  After a first run has inlined the remote
    definition into [orders.id], a second run fetches and builds the
    definition again: [ref_obj] is a new object, and when the resource has
    changed in between the field also takes the attributes that are new. *)
Theorem inline_again_resolves_again :
  ∃ once w1 twice w2 later w3,
    inline_definitions_into_data_contract (Example.env Example.served_first)
      Example.remote_spec Example.empty_world = (once, Ok tt, w1)
    ∧ Example.attribute once "orders" "id" "ref_obj" = Some (VObj 0)
    ∧ Example.attribute once "orders" "id" "format" = Some VNone
    ∧ length (heap w1) = 1
    ∧ inline_definitions_into_data_contract (Example.env Example.served_first)
        once w1 = (twice, Ok tt, w2)
    ∧ Example.attribute twice "orders" "id" "ref_obj" = Some (VObj 1)
    ∧ length (heap w2) = 2
    ∧ heap w2 !! 1 = heap w2 !! 0
    ∧ inline_definitions_into_data_contract (Example.env Example.served_later)
        once w1 = (later, Ok tt, w3)
    ∧ Example.attribute later "orders" "id" "ref_obj" = Some (VObj 1)
    ∧ Example.attribute later "orders" "id" "format" = Some (VStr "int64")
    ∧ once ≠ twice ∧ once ≠ later.
Proof.
  eexists _, _, _, _, _, _.
  split; [vm_compute; reflexivity |].
  do 3 (split; [reflexivity |]).
  split; [vm_compute; reflexivity |].
  do 3 (split; [reflexivity |]).
  split; [vm_compute; reflexivity |].
  do 2 (split; [reflexivity |]).
  split; intros H;
    apply (f_equal (λ s, Example.attribute s "orders" "id" "ref_obj")) in H;
    vm_compute in H; discriminate H.
Qed.

(** With [ref_obj] populated and no [ref] the field is not skipped either:
    resolution is attempted on [None]. *)
Lemma inline_field_ref_obj_without_ref (E : Env)
    (definitions : gmap string loc) (w : world) :
  getattr Example.resolved_field "ref" = Ok VNone
  ∧ getattr Example.resolved_field "ref_obj" = Ok (VObj 0)
  ∧ inline_field E definitions Example.resolved_field w
    = (Example.resolved_field, Raise (AttributeError "startswith"), w).
Proof. repeat split. Qed.

(** ** An unresolvable reference stops the whole resolution *)

Section Unresolvable.
Context (E : Env).

Lemma inline_field_unresolvable (definitions : gmap string loc)
    (field : BaseModel) (ref : string) (w : world) :
  getattr field "ref" = Ok (VStr ref) → ref ≠ EmptyString →
  startswith ref "http://" = false →
  startswith ref "https://" = false →
  startswith ref "#/definitions/" = false →
  inline_field E definitions field w
  = (field, Raise (UnresolvableReference ref), w).
Proof.
  intros Href Hne Hhttp Hhttps Hlocal. unfold inline_field.
  rewrite Href. cbn [truthy]. destruct ref; [done |]. cbn [String.eqb negb].
  unfold resolve_definition_ref. by rewrite Hhttp, Hhttps, Hlocal.
Qed.

Lemma for_field_raises (definitions : gmap string loc)
    (fs : list (string * BaseModel)) (name : string) (field : BaseModel) :
  (name, field) ∈ fs →
  (∀ w, ∃ field' e w',
     inline_field E definitions field w = (field', Raise e, w')) →
  ∀ w, ∃ fs' e w', for_field E definitions fs w = (fs', Raise e, w').
Proof.
  intros Hin Hraise.
  induction fs as [|[n f] fs IH]; intros w; [by apply elem_of_nil in Hin |].
  cbn [for_field].
  destruct (inline_field E definitions f w) as [[f1 [[]|e]] w1] eqn:Hf;
    [| by eexists _, _, _].
  apply elem_of_cons in Hin as [[= <- <-]|Hin].
  - destruct (Hraise w) as (? & ? & ? & Hr). congruence.
  - destruct (IH Hin w1) as (fs' & e & w' & ->). by eexists _, _, _.
Qed.

Lemma for_model_raises (definitions : gmap string loc)
    (ms : list (string * Model)) (name : string) (model : Model) :
  (name, model) ∈ ms →
  (∀ w, ∃ fs' e w',
     for_field E definitions (fields model) w = (fs', Raise e, w')) →
  ∀ w, ∃ ms' e w', for_model E definitions ms w = (ms', Raise e, w').
Proof.
  intros Hin Hraise.
  induction ms as [|[n m] ms IH]; intros w; [by apply elem_of_nil in Hin |].
  cbn [for_model].
  destruct (for_field E definitions (fields m) w) as [[f1 [[]|e]] w1] eqn:Hf;
    [| by eexists _, _, _].
  apply elem_of_cons in Hin as [[= <- <-]|Hin].
  - destruct (Hraise w) as (? & ? & ? & Hr). congruence.
  - destruct (IH Hin w1) as (ms' & e & w' & ->). by eexists _, _, _.
Qed.

(** A specification that holds a field with such a reference anywhere is
    not inlined: the run raises, at that field or at an earlier one. *)
Lemma inline_definitions_unresolvable (spec : DataContractSpecification)
    (model_name field_name ref : string) (model : Model) (field : BaseModel) :
  (model_name, model) ∈ models spec →
  (field_name, field) ∈ fields model →
  getattr field "ref" = Ok (VStr ref) → ref ≠ EmptyString →
  startswith ref "http://" = false →
  startswith ref "https://" = false →
  startswith ref "#/definitions/" = false →
  ∀ w, ∃ spec' e w',
    inline_definitions_into_data_contract E spec w = (spec', Raise e, w').
Proof.
  intros Hmodel Hfield Href Hne Hhttp Hhttps Hlocal w.
  unfold inline_definitions_into_data_contract.
  destruct (for_model_raises (definitions spec) (models spec) model_name model
              Hmodel) with (w := w) as (ms' & e & w' & ->).
  - apply (for_field_raises _ _ field_name field Hfield).
    intros w0. eexists _, _, _. by apply inline_field_unresolvable.
  - by eexists _, _, _.
Qed.

(** X8: the string entry point, asked to inline, returns no specification
    for a document that builds to a specification in which some field has a
    non-empty reference that is neither a URL nor a local anchor: the call
    raises, whatever [schema_location] and [include_quality] are. *)
Lemma resolve_data_contract_from_str_unresolvable (text : string)
    (schema_location : option string) (include_quality : option bool)
    (w : world) (yaml : value) (spec : DataContractSpecification)
    (h' : list BaseModel)
    (model_name field_name ref : string) (model : Model) (field : BaseModel) :
  yaml_safe_load E text = inr yaml →
  new_DataContractSpecification E yaml (heap w) = (Ok spec, h') →
  (model_name, model) ∈ models spec →
  (field_name, field) ∈ fields model →
  getattr field "ref" = Ok (VStr ref) → ref ≠ EmptyString →
  startswith ref "http://" = false →
  startswith ref "https://" = false →
  startswith ref "#/definitions/" = false →
  ∃ e w',
    resolve_data_contract_from_str E text schema_location (Some true)
      include_quality w = (Raise e, w').
Proof.
  intros Hyaml Hbuild Hmodel Hfield Href Hne Hhttp Hhttps Hlocal.
  unfold resolve_data_contract_from_str, to_yaml, validate, bind, lift, ret,
    raise, logging.
  rewrite Hyaml.
  destruct (fetch_schema E schema_location) as [schema|e]; [| by eexists _, _].
  destruct (fastjsonschema_validate E schema yaml) as [[m|m]|];
    [by eexists _, _ .. |].
  cbn [heap log]. rewrite Hbuild. cbv beta iota delta [default from_option id].
  edestruct (inline_definitions_unresolvable spec) as (spec' & e & w' & ->);
    [done .. |].
  by eexists _, _.
Qed.

End Unresolvable.

(** * Further properties of the resolver *)

(** ** What inlining keeps, whatever the outcome *)

Section InlineShape.
Context (E : Env).

(** A relation between a field and what one visit of the loop leaves of it
    holds, entry by entry, between the fields of a model before and after
    the loop, also when the loop raises half way. *)
Lemma for_field_related (R : BaseModel → BaseModel → Prop)
    (definitions : gmap string loc) :
  (∀ f, R f f) →
  (∀ f w, R f (inline_field E definitions f w).1.1) →
  ∀ fs w,
    Forall2 (λ a b, a.1 = b.1 ∧ R a.2 b.2) fs
      (for_field E definitions fs w).1.1.
Proof.
  intros Hrefl Hstep fs. induction fs as [|[n f] fs IH]; intros w;
    cbn [for_field].
  - constructor.
  - pose proof (Hstep f w) as Hf.
    destruct (inline_field E definitions f w) as [[f1 r1] w1].
    cbn [fst] in Hf. destruct r1.
    + specialize (IH w1).
      destruct (for_field E definitions fs w1) as [[fs2 r2] w2].
      cbn [fst] in *. by constructor.
    + cbn [fst]. constructor; [done |].
      apply Forall_Forall2_diag, Forall_forall. by intros [].
Qed.

Lemma for_model_related (R : BaseModel → BaseModel → Prop)
    (definitions : gmap string loc) :
  (∀ f, R f f) →
  (∀ f w, R f (inline_field E definitions f w).1.1) →
  ∀ ms w,
    Forall2 (λ m m', m.1 = m'.1
                     ∧ Forall2 (λ a b, a.1 = b.1 ∧ R a.2 b.2)
                         (fields m.2) (fields m'.2))
      ms (for_model E definitions ms w).1.1.
Proof.
  intros Hrefl Hstep ms. induction ms as [|[n m] ms IH]; intros w;
    cbn [for_model].
  - constructor.
  - pose proof (for_field_related R definitions Hrefl Hstep (fields m) w) as Hf.
    destruct (for_field E definitions (fields m) w) as [[fs1 r1] w1].
    cbn [fst] in Hf. destruct r1.
    + specialize (IH w1).
      destruct (for_model E definitions ms w1) as [[ms2 r2] w2].
      cbn [fst] in *. by constructor.
    + cbn [fst]. constructor; [done |].
      apply Forall_Forall2_diag, Forall_forall. intros [k x] _. split; [done |].
      apply Forall_Forall2_diag, Forall_forall. by intros [].
Qed.

Lemma inline_related (R : BaseModel → BaseModel → Prop)
    (spec : DataContractSpecification) (w : world) :
  (∀ f, R f f) →
  (∀ f w, R f (inline_field E (definitions spec) f w).1.1) →
  Forall2 (λ m m', m.1 = m'.1
                   ∧ Forall2 (λ a b, a.1 = b.1 ∧ R a.2 b.2)
                       (fields m.2) (fields m'.2))
    (models spec)
    (models (inline_definitions_into_data_contract E spec w).1.1).
Proof.
  intros Hrefl Hstep. unfold inline_definitions_into_data_contract.
  pose proof (for_model_related R (definitions spec) Hrefl Hstep
                (models spec) w) as H.
  by destruct (for_model E (definitions spec) (models spec) w) as [[ms r] w'].
Qed.

(** One visit of the loop never takes a name out of [model_fields_set] and
    never changes an attribute that is explicitly set, [ref_obj] apart. *)
Lemma inline_field_keeps (definitions : gmap string loc) (field : BaseModel)
    (w : world) :
  model_fields_set field
    ⊆ model_fields_set (inline_field E definitions field w).1.1
  ∧ ∀ name, name ≠ "ref_obj" → name ∈ model_fields_set field →
      attrs (inline_field E definitions field w).1.1 !! name
      = attrs field !! name.
Proof.
  unfold inline_field.
  destruct (getattr field "ref") as [ref|e]; [| done].
  destruct (if truthy ref then _ else _) as [[]|]; try done.
  destruct (resolve_definition_ref E ref definitions w) as [[l|e] w1]; [| done].
  destruct (for_field_name _ _ _) as [f1 r1] eqn:Hrun. cbn [fst].
  apply for_field_name_keeps in Hrun as [Hset Hattrs].
  cbn [setattr attrs model_fields_set] in Hset, Hattrs. split; [set_solver |].
  intros name Hne Hname. rewrite Hattrs by set_solver.
  by apply lookup_insert_ne.
Qed.

(** X1: inlining never adds, drops, renames or reorders a model or a
    field: the model names and, model by model, the field names of the
    specification are the same after the run as before, whether the run
    succeeds or raises. *)
Theorem inline_definitions_keeps_names (spec : DataContractSpecification)
    (w : world) :
  (models (inline_definitions_into_data_contract E spec w).1.1).*1
  = (models spec).*1
  ∧ Forall2 (λ m m', (fields m'.2).*1 = (fields m.2).*1)
      (models spec)
      (models (inline_definitions_into_data_contract E spec w).1.1).
Proof.
  pose proof (inline_related (λ _ _, True) spec w (λ _, I) (λ _ _, I)) as H.
  revert H.
  generalize (models (inline_definitions_into_data_contract E spec w).1.1).
  generalize (models spec). intros ms ms' H. split.
  - induction H as [|m m' ms ms' [Hn _] _ IH]; [done |].
    cbn [fmap list_fmap]. by rewrite Hn, IH.
  - eapply Forall2_impl; [exact H |]. intros m m' [_ Hf]. cbn beta.
    clear -Hf. induction Hf as [|a b fs fs' [Hn _] _ IH]; [done |].
    cbn [fmap list_fmap]. by rewrite Hn, IH.
Qed.

(** X2: a value the field sets explicitly always wins: whatever the run
    does (skip, merge, raise half way, raise in a later field), every
    attribute other than [ref_obj] that was in [model_fields_set] of a field
    has the value it had, and no name leaves [model_fields_set]. *)
Theorem inline_definitions_keeps_explicit_values
    (spec : DataContractSpecification) (w : world) :
  Forall2
    (λ m m',
       Forall2
         (λ f f',
            model_fields_set f.2 ⊆ model_fields_set f'.2
            ∧ ∀ name, name ≠ "ref_obj" → name ∈ model_fields_set f.2 →
                attrs f'.2 !! name = attrs f.2 !! name)
         (fields m.2) (fields m'.2))
    (models spec)
    (models (inline_definitions_into_data_contract E spec w).1.1).
Proof.
  eapply Forall2_impl.
  - apply (inline_related
             (λ f f', model_fields_set f ⊆ model_fields_set f'
                      ∧ ∀ name, name ≠ "ref_obj" →
                          name ∈ model_fields_set f →
                          attrs f' !! name = attrs f !! name)).
    + done.
    + intros f w0. apply inline_field_keeps.
  - intros m m' [_ Hf]. eapply Forall2_impl; [exact Hf |].
    by intros f f' [_ H].
Qed.

End InlineShape.

(** ** Fields that are skipped, fields that stop the run *)

Section InlineEdges.
Context (E : Env).

Lemma inline_field_unreferenced (definitions : gmap string loc)
    (field : BaseModel) (w : world) :
  unreferenced field →
  inline_field E definitions field w = (field, Ok tt, w).
Proof.
  intros (ref & ref_obj & Href & Ht & Hobj & Hto). unfold inline_field.
  by rewrite Href, Ht, Hobj, Hto.
Qed.

Lemma for_field_unreferenced (definitions : gmap string loc)
    (fs : list (string * BaseModel)) (w : world) :
  Forall (λ kv, unreferenced kv.2) fs →
  for_field E definitions fs w = (fs, Ok tt, w).
Proof.
  induction 1 as [|[n f] fs Hf _ IH]; [done |]. cbn [for_field].
  by rewrite (inline_field_unreferenced _ _ _ Hf), IH.
Qed.

(** X3: a specification in which no field refers to anything (every [ref]
    is [None] or empty and no [ref_obj] is set) goes through inlining
    untouched: the run succeeds, returns the specification as it was, and
    leaves heap and log alone. *)
Theorem inline_definitions_without_references
    (spec : DataContractSpecification) (w : world) :
  Forall (λ m, Forall (λ kv, unreferenced kv.2) (fields m.2)) (models spec) →
  inline_definitions_into_data_contract E spec w = (spec, Ok tt, w).
Proof.
  intros Hspec. unfold inline_definitions_into_data_contract.
  assert (for_model E (definitions spec) (models spec) w
          = (models spec, Ok tt, w)) as ->.
  { induction Hspec as [|[n [fs]] ms Hm _ IH]; [done |]. cbn [for_model fields].
    cbn [snd fields] in Hm. by rewrite (for_field_unreferenced _ _ _ Hm), IH. }
  by destruct spec.
Qed.



(** A field with [ref_obj] set and a falsy [ref] is neither skipped nor
    resolved: the visit raises and leaves field and world as they were. *)
Lemma inline_field_ref_obj_alone (definitions : gmap string loc)
    (field : BaseModel) (ref ref_obj : value) (w : world) :
  getattr field "ref" = Ok ref → truthy ref = false →
  getattr field "ref_obj" = Ok ref_obj → truthy ref_obj = true →
  ∃ e, inline_field E definitions field w = (field, Raise e, w)
       ∧ (e = AttributeError "startswith"
          ∨ e = UnresolvableReference EmptyString).
Proof.
  intros Href Ht Hobj Hto. unfold inline_field.
  rewrite Href, Ht, Hobj, Hto. cbn [negb].
  destruct ref as [| | |s| | |]; try by eexists; split; [done | left].
  destruct s; [| discriminate Ht]. eexists. split; [done | by right].
Qed.

(** X5: a field that carries a resolved definition ([ref_obj]) but no
    reference ([ref] is [None] or empty) makes the whole inlining raise: the
    guard lets it through and resolution of the missing reference fails. *)
Theorem inline_definitions_ref_obj_without_ref
    (spec : DataContractSpecification) (model_name field_name : string)
    (model : Model) (field : BaseModel) (ref ref_obj : value) :
  (model_name, model) ∈ models spec →
  (field_name, field) ∈ fields model →
  getattr field "ref" = Ok ref → truthy ref = false →
  getattr field "ref_obj" = Ok ref_obj → truthy ref_obj = true →
  ∀ w, ∃ spec' e w',
    inline_definitions_into_data_contract E spec w = (spec', Raise e, w').
Proof.
  intros Hmodel Hfield Href Ht Hobj Hto w.
  unfold inline_definitions_into_data_contract.
  destruct (for_model_raises E (definitions spec) (models spec) model_name model
              Hmodel) with (w := w) as (ms' & e & w' & ->).
  - apply (for_field_raises E _ _ field_name field Hfield). intros w0.
    destruct (inline_field_ref_obj_alone (definitions spec) field ref ref_obj
                w0 Href Ht Hobj Hto) as (e & He & _).
    by eexists _, _, _.
  - by eexists _, _, _.
Qed.

End InlineEdges.

Lemma inline_definitions_without_references_witness :
  inline_definitions_into_data_contract (Example.env []) Example.plain_spec
    Example.order_id_world
  = (Example.plain_spec, Ok tt, Example.order_id_world).
Proof.
  apply inline_definitions_without_references.
  repeat constructor; cbn [snd]; eexists _, _; repeat split; reflexivity.
Defined.


Lemma inline_definitions_ref_obj_without_ref_witness :
  ∃ spec' e w',
    inline_definitions_into_data_contract (Example.env []) Example.resolved_spec
      Example.order_id_world = (spec', Raise e, w').
Proof.
  apply (inline_definitions_ref_obj_without_ref (Example.env [])
           Example.resolved_spec "orders" "id"
           {| fields := [("id", Example.resolved_field)] |}
           Example.resolved_field VNone (VObj 0)).
  - apply list_elem_of_here.
  - apply list_elem_of_here.
  - reflexivity.
  - reflexivity.
  - reflexivity.
  - reflexivity.
Defined.

(** ** Runs of the properties above on the small world *)

Lemma inline_definitions_frame_witness :
  ∃ spec' r w',
    inline_definitions_into_data_contract (Example.env []) Example.broken_spec
      Example.order_id_world = (spec', r, w')
    ∧ definitions spec' = definitions Example.broken_spec
    ∧ quality spec' = quality Example.broken_spec
    ∧ heap w' !! 0 = Some Example.order_id_definition.
Proof.
  destruct (inline_definitions_into_data_contract (Example.env [])
              Example.broken_spec Example.order_id_world)
    as [[spec' r] w'] eqn:Hrun.
  destruct (inline_definitions_frame (Example.env []) _ _ _ _ _ Hrun)
    as (Hdefs & Hquality & Hheap).
  exists spec', r, w'. split; [reflexivity |].
  split; [exact Hdefs |]. split; [exact Hquality |].
  apply Hheap. reflexivity.
Defined.

Lemma inline_definitions_again_local_witness :
  ∃ spec',
    inline_definitions_into_data_contract (Example.env []) Example.local_spec
      Example.order_id_world = (spec', Ok tt, Example.order_id_world)
    ∧ inline_definitions_into_data_contract (Example.env []) spec'
        Example.order_id_world = (spec', Ok tt, Example.order_id_world).
Proof.
  eexists.
  refine ((λ Hrun, conj Hrun
             (proj2 (inline_definitions_again_local (Example.env [])
                       Example.local_spec _ Example.order_id_world _ _ _ Hrun)))
          _).
  - repeat constructor; cbn [snd].
    all: try (intros ref H; vm_compute in H; injection H as <-; reflexivity).
    all: intros ref H _; apply (bool_decide_unpack _); vm_compute; exact I.
  - vm_compute. reflexivity.
Defined.

Lemma resolve_data_contract_from_str_unresolvable_witness :
  ∃ e w',
    resolve_data_contract_from_str Example.strict_env
      "{id: orders, models: {m1: {fields: {f1: {$ref: not-a-valid-ref}}}}}"
      None (Some true) None Example.empty_world = (Raise e, w').
Proof.
  eapply (resolve_data_contract_from_str_unresolvable Example.strict_env _ None
            None Example.empty_world _ _ _ "m1" "f1" "not-a-valid-ref").
  - reflexivity.
  - reflexivity.
  - apply list_elem_of_here.
  - apply list_elem_of_here.
  - reflexivity.
  - discriminate.
  - reflexivity.
  - reflexivity.
  - reflexivity.
Defined.

Lemma resolve_quality_ref_file_witness :
  resolve_quality_ref (Example.env [])
    {| type_ := Some "SodaCL";
       specification := VDict [("$ref", VStr "missing.txt")] |}
  = ({| type_ := Some "SodaCL";
        specification := VDict [("$ref", VStr "missing.txt")] |},
     Raise (MissingReferenceFile "missing.txt"))
  ∧ resolve_quality_ref (Example.env [])
      {| type_ := Some "SodaCL";
         specification := VDict [("$ref", VStr "checks.yaml")] |}
    = ({| type_ := Some "SodaCL";
          specification := VStr "checks for orders: [row_count > 0]" |}, Ok tt).
Proof.
  split.
  - refine (proj1 (resolve_quality_ref_file (Example.env []) _
                     [("$ref", VStr "missing.txt")] (VStr "missing.txt")
                     _ _ _) _);
      [reflexivity | discriminate | reflexivity | reflexivity].
  - refine (proj2 (resolve_quality_ref_file (Example.env []) _
                     [("$ref", VStr "checks.yaml")] (VStr "checks.yaml")
                     _ _ _) _ _ _);
      [reflexivity | discriminate | reflexivity | reflexivity | reflexivity].
Defined.

(** ** Which definition a reference resolves to *)

Lemma prefix_inv (p s : string) :
  String.prefix p s = true → ∃ t, s = p +:+ t.
Proof.
  revert s. induction p as [|a p IH]; intros s H.
  - by exists s.
  - destruct s as [|b s]; [discriminate H |]. cbn [String.prefix] in H.
    destruct (ascii_dec a b) as [->|]; [| discriminate H].
    destruct (IH _ H) as [t ->]. by exists t.
Qed.

Lemma prefix_append_l (p a b : string) :
  String.prefix p a = true → String.prefix p (a +:+ b) = true.
Proof.
  intros H. destruct (prefix_inv _ _ H) as [t ->].
  by rewrite append_assoc, prefix_append.
Qed.

Lemma prefix_empty (p : string) :
  p ≠ EmptyString → String.prefix p EmptyString = false.
Proof. by destruct p. Qed.

(** The first piece of a split: the text up to the first occurrence of the
    separator. *)
Lemma split_from_head (sep t cur : string) :
  sep ≠ EmptyString →
  ∃ name rest,
    t = name +:+ rest
    ∧ contains name sep = false
    ∧ (rest = EmptyString ∨ String.prefix sep rest = true)
    ∧ head (split_from sep t 0 cur) = Some (cur +:+ name).
Proof.
  intros Hsep. revert cur. induction t as [|c t IH]; intros cur.
  - exists EmptyString, EmptyString. cbn [split_from contains head].
    rewrite (prefix_empty _ Hsep), !append_empty_r. by eauto.
  - cbn [split_from]. destruct (String.prefix sep (String c t)) eqn:Hp.
    + exists EmptyString, (String c t). cbn [contains head].
      rewrite (prefix_empty _ Hsep), !append_empty_r. by eauto.
    + destruct (IH (cur +:+ String c EmptyString))
        as (name & rest & -> & Hname & Hrest & Hhead).
      exists (String c name), rest. rewrite Hhead, append_assoc.
      repeat split; [| done].
      cbn [contains]. rewrite Hname, orb_false_r.
      destruct (String.prefix sep (String c name)) eqn:Hq; [| done].
      apply (prefix_append_l _ _ rest) in Hq. rewrite append_cons in Hq.
      congruence.
Qed.

Section WhichDefinition.
Context (E : Env).

(** X10: every reference that starts with [#/definitions/] is looked up
    under the text between that prefix and the next [#/definitions/] (or
    the end of the reference).  The lookup is the only thing that happens:
    the location stored under that name is returned, or [KeyError] with
    that name is raised; the world is untouched, nothing is fetched or
    allocated, and no [IndexError] or [DataContractException] can come out. *)
Theorem resolve_definition_ref_anchor (ref : string) :
  startswith ref "#/definitions/" = true →
  ∃ name rest,
    ref = "#/definitions/" +:+ name +:+ rest
    ∧ contains name "#/definitions/" = false
    ∧ (rest = EmptyString ∨ startswith rest "#/definitions/" = true)
    ∧ ∀ definitions w,
        resolve_definition_ref E (VStr ref) definitions w
        = match definitions !! name with
          | Some definition => (Ok definition, w)
          | None => (Raise (KeyError name), w)
          end.
Proof.
  intros Hp. unfold startswith in Hp.
  destruct (prefix_inv _ _ Hp) as [t ->].
  destruct (split_from_head "#/definitions/" t EmptyString)
    as (name & rest & -> & Hname & Hrest & Hhead); [done |].
  exists name, rest. repeat split; [done.. |].
  intros definitions w. unfold resolve_definition_ref.
  change (startswith ("#/definitions/" +:+ name +:+ rest) "http://") with false.
  change (startswith ("#/definitions/" +:+ name +:+ rest) "https://") with false.
  unfold startswith. rewrite Hp. cbn [orb].
  assert (split ("#/definitions/" +:+ name +:+ rest) "#/definitions/" !! 1
          = Some name) as ->.
  { unfold split.
    change ("#/definitions/" +:+ name +:+ rest)
      with (String "#" ("/definitions/" +:+ name +:+ rest)) at 1.
    cbn [split_from].
    change (String "#" ("/definitions/" +:+ name +:+ rest))
      with ("#/definitions/" +:+ name +:+ rest).
    rewrite Hp.
    change (String.length "#/definitions/" - 1)
      with (String.length "/definitions/").
    rewrite split_from_skip.
    destruct (split_from "#/definitions/" (name +:+ rest) 0 EmptyString)
      as [|x xs]; [discriminate Hhead |].
    by injection Hhead as ->. }
  by destruct (definitions !! name).
Qed.


End WhichDefinition.

Lemma resolve_definition_ref_anchor_witness :
  ∃ name rest,
    "#/definitions/order_id" = "#/definitions/" +:+ name +:+ rest
    ∧ resolve_definition_ref (Example.env []) (VStr "#/definitions/order_id")
        Example.order_id_definitions Example.order_id_world
      = match Example.order_id_definitions !! name with
        | Some definition => (Ok definition, Example.order_id_world)
        | None => (Raise (KeyError name), Example.order_id_world)
        end.
Proof.
  destruct (resolve_definition_ref_anchor (Example.env [])
              "#/definitions/order_id")
    as (name & rest & Href & _ & _ & Hres); [reflexivity |].
  exists name, rest. split; [exact Href | apply Hres].
Defined.


(** ** Quality references, block by block *)

Section QualityBlocks.
Context (E : Env).

Lemma get_quality_ref_file_again (quality_spec v : value) :
  get_quality_ref_file E quality_spec = Ok v →
  get_quality_ref_file E v = Ok v.
Proof.
  destruct quality_spec as [| | | | |d|]; try by intros [= <-].
  cbn [get_quality_ref_file]. destruct (dict_get "$ref" d) as [ref|] eqn:Hget.
  - destruct (os_path_exists E ref) as [[]|]; try done.
    destruct (open_read E ref); [| done]. by intros [= <-].
  - intros [= <-]. cbn [get_quality_ref_file]. by rewrite Hget.
Qed.

Lemma for_model_quality_again (items items' : list (string * value))
    (u : unit) :
  for_model_quality E items = (items', Ok u) →
  for_model_quality E items' = (items', Ok u).
Proof.
  revert items'. induction items as [|[k v] items IH]; intros items' H;
    cbn [for_model_quality] in H.
  - by injection H as <- <-.
  - destruct (get_quality_ref_file E v) as [v'|e] eqn:Hv; [| done].
    destruct (for_model_quality E items) as [items2 r2] eqn:Hrest.
    injection H as <- ->. cbn [for_model_quality].
    by rewrite (get_quality_ref_file_again _ _ Hv), (IH _ eq_refl).
Qed.

(** X12: quality resolution that succeeded has nothing left to do: a
    second call on the block it produced succeeds and returns that block
    again, for a per-model block as for a single specification; no file is
    followed twice. *)
Theorem resolve_quality_ref_again (quality quality' : Quality) (u : unit) :
  resolve_quality_ref E quality = (quality', Ok u) →
  resolve_quality_ref E quality' = (quality', Ok u).
Proof.
  unfold resolve_quality_ref at 1.
  destruct (specification quality) as [| | | | |d|] eqn:Hspec;
    try (intros [= <- <-]; unfold resolve_quality_ref; by rewrite Hspec).
  destruct (bool_decide (type_ quality = Some "great-expectations")) eqn:Ht.
  - destruct (for_model_quality E d) as [items r] eqn:Hitems.
    intros [= <- ->]. unfold resolve_quality_ref.
    cbn [specification type_]. rewrite Ht.
    by rewrite (for_model_quality_again _ _ _ Hitems).
  - destruct (dict_contains "$ref" d) eqn:Hc.
    + cbn [get_quality_ref_file]. unfold dict_contains in Hc.
      apply bool_decide_eq_true in Hc as [ref Hget]. rewrite Hget.
      destruct (os_path_exists E ref) as [[]|]; try done.
      destruct (open_read E ref); [| done]. by intros [= <- <-].
    + intros [= <- <-]. unfold resolve_quality_ref. by rewrite Hspec, Ht, Hc.
Qed.



(** X14: in a block of type great-expectations an entry that is not a
    mapping with a [$ref] key is not a file reference.  In particular a
    [$ref] written at the top level of the specification, with the path as
    its value, is read as a model called [$ref]: when no entry is a file
    reference the block comes back as it is and no file is looked at. *)
Theorem resolve_quality_ref_per_model_inert (quality : Quality)
    (items : list (string * value)) :
  specification quality = VDict items →
  type_ quality = Some "great-expectations" →
  Forall (λ kv, ∀ d, kv.2 = VDict d → dict_get "$ref" d = None) items →
  resolve_quality_ref E quality = (quality, Ok tt).
Proof.
  intros Hspec Htype Hitems. unfold resolve_quality_ref.
  rewrite Hspec, bool_decide_eq_true_2 by done.
  assert (for_model_quality E items = (items, Ok tt)) as ->.
  { clear Hspec. induction Hitems as [|[k v] items Hv _ IH]; [done |].
    cbn [for_model_quality]. cbn [snd] in Hv.
    assert (get_quality_ref_file E v = Ok v) as ->.
    { destruct v as [| | | | |d|]; try done.
      cbn [get_quality_ref_file]. by rewrite (Hv d eq_refl). }
    by rewrite IH. }
  destruct quality as [t s]. cbn [specification type_] in *. by subst.
Qed.

End QualityBlocks.

Lemma resolve_quality_ref_again_witness :
  resolve_quality_ref (Example.env [])
    {| type_ := Some "SodaCL";
       specification := VStr "checks for orders: [row_count > 0]" |}
  = ({| type_ := Some "SodaCL";
        specification := VStr "checks for orders: [row_count > 0]" |}, Ok tt).
Proof.
  apply (resolve_quality_ref_again (Example.env [])
           {| type_ := Some "SodaCL";
              specification := VDict [("$ref", VStr "checks.yaml")] |}).
  reflexivity.
Defined.


Lemma resolve_quality_ref_per_model_inert_witness :
  resolve_quality_ref (Example.env [])
    {| type_ := Some "great-expectations";
       specification := VDict [("$ref", VStr "checks.yaml")] |}
  = ({| type_ := Some "great-expectations";
        specification := VDict [("$ref", VStr "checks.yaml")] |}, Ok tt).
Proof.
  apply (resolve_quality_ref_per_model_inert (Example.env []) _
           [("$ref", VStr "checks.yaml")]).
  - reflexivity.
  - reflexivity.
  - repeat constructor. intros d H. discriminate H.
Defined.

(** ** The pipeline, stage by stage *)

Section Pipeline.
Context (E : Env).

Lemma related_names {A B} (P : string * A → string * B → Prop)
    (l : list (string * A)) (k : list (string * B)) :
  Forall2 (λ a b, a.1 = b.1 ∧ P a b) l k → k.*1 = l.*1.
Proof.
  induction 1 as [|a b l k [Hn _] _ IH]; [done |].
  cbn [fmap list_fmap]. by rewrite Hn, IH.
Qed.

Lemma resolve_quality_ref_type (quality : Quality) :
  type_ (resolve_quality_ref E quality).1 = type_ quality.
Proof.
  unfold resolve_quality_ref.
  destruct (specification quality) as [| | | | |d|]; try done.
  destruct (bool_decide _).
  - by destruct (for_model_quality E d).
  - destruct (dict_contains "$ref" d); [| done].
    by destruct (get_quality_ref_file E (VDict d)).
Qed.

(** What a successful run of the string entry point went through. *)
Lemma resolve_data_contract_from_str_inv (text : string)
    (schema_location : option string)
    (inline_definitions include_quality : option bool)
    (w w' : world) (spec : DataContractSpecification) :
  resolve_data_contract_from_str E text schema_location inline_definitions
    include_quality w = (Ok spec, w') →
  ∃ yaml schema built h inlined,
    yaml_safe_load E text = inr yaml
    ∧ fetch_schema E schema_location = Ok schema
    ∧ fastjsonschema_validate E schema yaml = None
    ∧ new_DataContractSpecification E yaml (heap w) = (Ok built, h)
    ∧ (if default false inline_definitions
       then inline_definitions_into_data_contract E built
              {| heap := h; log := log w ++ [("DEBUG", "YAML data is valid.")] |}
            = (inlined, Ok tt, w')
       else inlined = built
            ∧ w' = {| heap := h;
                      log := log w ++ [("DEBUG", "YAML data is valid.")] |})
    ∧ models spec = models inlined
    ∧ definitions spec = definitions inlined
    ∧ match quality inlined with
      | Some q =>
          if default false include_quality
          then ∃ q', resolve_quality_ref E q = (q', Ok tt)
                     ∧ quality spec = Some q'
          else quality spec = Some q
      | None => quality spec = None
      end.
Proof.
  unfold resolve_data_contract_from_str, to_yaml, validate, bind, lift, ret,
    raise, logging.
  destruct (yaml_safe_load E text) as [m|yaml] eqn:Hyaml; [done |].
  destruct (fetch_schema E schema_location) as [schema|e] eqn:Hschema;
    [| done].
  destruct (fastjsonschema_validate E schema yaml) as [[m|m]|] eqn:Hvalid;
    [done.. |].
  cbn [heap log].
  destruct (new_DataContractSpecification E yaml (heap w)) as [[built|e] h]
    eqn:Hbuild; [| done].
  destruct (default false inline_definitions) eqn:Hinl.
  - destruct (inline_definitions_into_data_contract E built _)
      as [[inlined [[]|e]] w1] eqn:Hrun; [| done].
    destruct (quality inlined) as [q|] eqn:Hq.
    + destruct (default false include_quality).
      * destruct (resolve_quality_ref E q) as [q' [[]|e]] eqn:Hres; [| done].
        intros [= <- <-]. exists yaml, schema, built, h, inlined.
        rewrite Hq. repeat split; first [done | by exists q'].
      * intros [= <- <-]. exists yaml, schema, built, h, inlined.
        by rewrite Hq.
    + intros [= <- <-]. exists yaml, schema, built, h, inlined. by rewrite Hq.
  - destruct (quality built) as [q|] eqn:Hq.
    + destruct (default false include_quality).
      * destruct (resolve_quality_ref E q) as [q' [[]|e]] eqn:Hres; [| done].
        intros [= <- <-]. exists yaml, schema, built, h, built.
        rewrite Hq. repeat split; first [done | by exists q'].
      * intros [= <- <-]. exists yaml, schema, built, h, built. by rewrite Hq.
    + intros [= <- <-]. exists yaml, schema, built, h, built. by rewrite Hq.
Qed.

(** X15: the generic entry point returns a specification it was not handed
    only for a document that went through the whole front of the pipeline:
    the text was loaded (from the location, or it is the string given), it
    parsed as YAML, the schema was fetched, the validator accepted the
    document and the constructor built a specification from it. *)
Theorem resolve_data_contract_validated
    (data_contract_location data_contract_str : option string)
    (schema_location : option string) (inline_definitions : option bool)
    (w w' : world) (spec : DataContractSpecification) :
  resolve_data_contract E data_contract_location data_contract_str None
    schema_location inline_definitions w = (Ok spec, w') →
  ∃ text yaml schema built h,
    match data_contract_location with
    | Some location =>
        (if startswith location "http://" || startswith location "https://"
         then fetch_resource E location else read_file E location) = Ok text
    | None => data_contract_str = Some text
    end
    ∧ yaml_safe_load E text = inr yaml
    ∧ fetch_schema E schema_location = Ok schema
    ∧ fastjsonschema_validate E schema yaml = None
    ∧ new_DataContractSpecification E yaml (heap w) = (Ok built, h).
Proof.
  unfold resolve_data_contract.
  destruct data_contract_location as [location|].
  - unfold resolve_data_contract_from_location, bind, lift.
    destruct (if startswith location "http://" || startswith location "https://"
              then fetch_resource E location else read_file E location)
      as [text|e]; [| done].
    intros H. apply resolve_data_contract_from_str_inv in H
      as (yaml & schema & built & h & inlined & ? & ? & ? & ? & _).
    by exists text, yaml, schema, built, h.
  - destruct data_contract_str as [text|]; [| done].
    intros H. apply resolve_data_contract_from_str_inv in H
      as (yaml & schema & built & h & inlined & ? & ? & ? & ? & _).
    by exists text, yaml, schema, built, h.
Qed.

(** X16: each option of the string entry point touches its own part of
    the result and nothing else.  In a specification that is returned, the
    definitions are the ones the constructor built and the models and
    fields have the names it gave them; without [inline_definitions] the
    models are exactly as built; without [include_quality] the quality
    block is exactly as built; and with it the block is still there with
    the type it had. *)
Theorem resolve_data_contract_from_str_parts (text : string)
    (schema_location : option string)
    (inline_definitions include_quality : option bool)
    (w w' : world) (spec : DataContractSpecification) :
  resolve_data_contract_from_str E text schema_location inline_definitions
    include_quality w = (Ok spec, w') →
  ∃ yaml built h,
    yaml_safe_load E text = inr yaml
    ∧ new_DataContractSpecification E yaml (heap w) = (Ok built, h)
    ∧ definitions spec = definitions built
    ∧ (models spec).*1 = (models built).*1
    ∧ (default false inline_definitions = false → models spec = models built)
    ∧ (default false include_quality = false → quality spec = quality built)
    ∧ type_ <$> quality spec = type_ <$> quality built.
Proof.
  intros H. apply resolve_data_contract_from_str_inv in H
    as (yaml & schema & built & h & inlined & Hyaml & _ & _ & Hbuild & Hinl
        & Hmodels & Hdefs & Hquality).
  exists yaml, built, h. split; [done |]. split; [done |].
  assert (definitions inlined = definitions built
          ∧ quality inlined = quality built
          ∧ (models inlined).*1 = (models built).*1
          ∧ (default false inline_definitions = false
             → models inlined = models built)) as (Hd & Hq & Hn & Hm).
  { destruct (default false inline_definitions).
    - pose proof (inline_related E (λ _ _, True) built
                    {| heap := h;
                       log := log w ++ [("DEBUG", "YAML data is valid.")] |}
                    (λ _, I) (λ _ _, I)) as Hrel.
      rewrite Hinl in Hrel. cbn [fst] in Hrel.
      apply related_names in Hrel.
      unfold inline_definitions_into_data_contract in Hinl.
      destruct (for_model E (definitions built) (models built) _)
        as [[ms r] w1].
      injection Hinl as <- _ _. by repeat split.
    - by destruct Hinl as [-> _]. }
  rewrite Hdefs, Hmodels, Hd, Hn. repeat split; [by auto | |].
  - intros Hiq. rewrite Hq in Hquality.
    destruct (quality built); [| done]. by rewrite Hiq in Hquality.
  - rewrite Hq in Hquality. destruct (quality built) as [q|]; [| by rewrite Hquality].
    destruct (default false include_quality); [| by rewrite Hquality].
    destruct Hquality as (q' & Hres & ->). cbn [fmap option_fmap option_map].
    f_equal. pose proof (resolve_quality_ref_type q) as Ht.
    by rewrite Hres in Ht.
Qed.

(** X17: a document that the validator rejects gets the same
    [DataContractException] whichever way the validator failed (a schema
    violation with its message, or any other exception with its text): the
    reason is that message, a warning with it is logged, and the
    constructor is never reached, so the heap is as it was, whatever the
    options are. *)
Theorem resolve_data_contract_from_str_invalid (text : string)
    (schema_location : option string)
    (inline_definitions include_quality : option bool) (w : world)
    (yaml schema : value) (failure : validate_exn) :
  yaml_safe_load E text = inr yaml →
  fetch_schema E schema_location = Ok schema →
  fastjsonschema_validate E schema yaml = Some failure →
  let message := match failure with
                 | JsonSchemaValueException message => message
                 | OtherException str_e => str_e
                 end in
  resolve_data_contract_from_str E text schema_location inline_definitions
    include_quality w
  = (Raise (DataContractException "lint" "failed"
              "Check that data contract YAML is valid" message "datacontract"),
     {| heap := heap w;
        log := log w
               ++ [("WARNING",
                    "Data Contract YAML is invalid. Validation error: "
                    +:+ message)] |}).
Proof.
  intros Hyaml Hschema Hvalid message.
  unfold resolve_data_contract_from_str, to_yaml, validate, bind, lift, ret,
    raise, logging.
  rewrite Hyaml, Hschema, Hvalid. by destruct failure.
Qed.

(** X18: text that does not parse as YAML gets the same error wherever it
    is decoded, as the contract itself or as a remote definition: the
    [DataContractException] whose reason is "Cannot parse YAML. Error: "
    followed by the parser's message, after a warning with that text has
    been logged.  For the contract the schema is not even fetched; for the
    definition nothing is put on the heap. *)
Theorem unparsable_text (text str_e : string) :
  yaml_safe_load E text = inl str_e →
  let e := DataContractException "lint" "failed"
             "Check that data contract YAML is valid"
             ("Cannot parse YAML. Error: " +:+ str_e) "datacontract" in
  let warned (w : world) :=
    {| heap := heap w;
       log := log w ++ [("WARNING", "Cannot parse YAML. Error: " +:+ str_e)] |} in
  (∀ schema_location inline_definitions include_quality w,
     resolve_data_contract_from_str E text schema_location inline_definitions
       include_quality w = (Raise e, warned w))
  ∧ (∀ ref definitions w,
       startswith ref "http://" || startswith ref "https://" = true →
       fetch_resource E ref = Ok text →
       resolve_definition_ref E (VStr ref) definitions w = (Raise e, warned w)).
Proof.
  intros Hyaml e warned. split.
  - intros. unfold resolve_data_contract_from_str, to_yaml, bind, raise, logging.
    by rewrite Hyaml.
  - intros ref definitions w Hurl Hfetch.
    unfold resolve_definition_ref, to_yaml, bind, lift, raise, logging.
    by rewrite Hurl, Hfetch, Hyaml.
Qed.

End Pipeline.

Lemma resolve_data_contract_validated_witness :
  ∃ text yaml schema built h,
    read_file (Example.env []) "datacontract.yaml" = Ok text
    ∧ yaml_safe_load (Example.env []) text = inr yaml
    ∧ fetch_schema (Example.env []) None = Ok schema
    ∧ fastjsonschema_validate (Example.env []) schema yaml = None
    ∧ new_DataContractSpecification (Example.env []) yaml [] = (Ok built, h).
Proof.
  eapply (resolve_data_contract_validated (Example.env [])
            (Some "datacontract.yaml") None None None Example.empty_world).
  vm_compute. reflexivity.
Defined.

Lemma resolve_data_contract_from_str_parts_witness :
  ∃ spec w',
    resolve_data_contract_from_str Example.strict_env
      "{id: orders, models: {m1: {fields: {f1: {$ref: '#/definitions/d1'}}}}, definitions: {d1: {type: string}}, quality: {type: SodaCL, specification: {$ref: checks.yaml}}}"
      None (Some true) (Some true) Example.empty_world = (Ok spec, w')
    ∧ ∃ yaml built h,
        yaml_safe_load Example.strict_env
          "{id: orders, models: {m1: {fields: {f1: {$ref: '#/definitions/d1'}}}}, definitions: {d1: {type: string}}, quality: {type: SodaCL, specification: {$ref: checks.yaml}}}"
        = inr yaml
        ∧ new_DataContractSpecification Example.strict_env yaml [] = (Ok built, h)
        ∧ definitions spec = definitions built
        ∧ (models spec).*1 = (models built).*1
        ∧ type_ <$> quality spec = type_ <$> quality built.
Proof.
  eexists _, _.
  refine ((λ Hrun,
             conj Hrun
               (match resolve_data_contract_from_str_parts Example.strict_env
                        _ None (Some true) (Some true) Example.empty_world _ _
                        Hrun with
                | ex_intro _ yaml (ex_intro _ built (ex_intro _ h
                    (conj Hy (conj Hb (conj Hd (conj Hn (conj _ (conj _ Ht)))))))) =>
                    ex_intro _ yaml (ex_intro _ built (ex_intro _ h
                      (conj Hy (conj Hb (conj Hd (conj Hn Ht))))))
                end)) _).
  vm_compute. reflexivity.
Defined.

Lemma resolve_data_contract_from_str_invalid_witness :
  resolve_data_contract_from_str Example.strict_env "models: {}" None
    (Some true) (Some true) Example.empty_world
  = (Raise (ValidationError "data must contain ['id'] properties"),
     {| heap := [];
        log := [("WARNING",
                 "Data Contract YAML is invalid. Validation error: data must contain ['id'] properties")] |}).
Proof.
  apply (resolve_data_contract_from_str_invalid Example.strict_env "models: {}"
           None (Some true) (Some true) Example.empty_world
           (VDict [("models", VDict [])]) VNone
           (JsonSchemaValueException "data must contain ['id'] properties"));
    reflexivity.
Defined.

Lemma unparsable_text_witness :
  resolve_data_contract_from_str (Example.env []) "models: [" None None None
    Example.empty_world
  = (Raise (ParseError "could not parse the document"),
     {| heap := [];
        log := [("WARNING",
                 "Cannot parse YAML. Error: could not parse the document")] |}).
Proof.
  destruct (unparsable_text (Example.env []) "models: ["
              "could not parse the document" eq_refl) as [H _].
  apply H.
Defined.

(** ** What counts as explicitly set after a merge *)

Section MergedNames.
Context (E : Env).

Lemma for_field_name_set (definition : BaseModel) (names : list string)
    (field : BaseModel) :
  model_fields_set definition ⊆ dom (attrs definition) →
  model_fields_set (for_field_name definition names field).1
  = model_fields_set field
    ∪ (model_fields_set definition ∩ list_to_set names).
Proof.
  intros Hdom. revert field. induction names as [|n names IH]; intros field.
  - cbn [for_field_name fst list_to_set]. set_solver.
  - cbn [for_field_name list_to_set].
    destruct (bool_decide (n ∈ model_fields_set definition)) eqn:Hd;
      [destruct (bool_decide (n ∈ model_fields_set field)) eqn:Hf |];
      cbn [andb negb].
    + apply bool_decide_eq_true in Hd, Hf. rewrite IH. set_solver.
    + apply bool_decide_eq_true in Hd. apply bool_decide_eq_false in Hf.
      unfold getattr. destruct (attrs definition !! n) as [v|] eqn:Hv.
      * rewrite IH. cbn [setattr model_fields_set]. set_solver.
      * apply not_elem_of_dom in Hv. set_solver.
    + apply bool_decide_eq_false in Hd. rewrite IH. set_solver.
Qed.

(** X19: after a field has been inlined, [model_fields_set] of the field
    holds what it held before, [ref_obj], and every attribute that [Field]
    declares and the definition sets explicitly: what was taken from the
    definition counts as explicitly set from then on, and nothing else
    does. *)
Theorem inline_field_explicitly_set (definitions : gmap string loc)
    (field : BaseModel) (w w' : world) (ref : value) (l : loc) :
  getattr field "ref" = Ok ref →
  resolve_definition_ref E ref definitions w = (Ok l, w') →
  model_fields_set (deref l w') ⊆ dom (attrs (deref l w')) →
  model_fields_set (inline_field E definitions field w).1.1
  = {["ref_obj"]} ∪ model_fields_set field
    ∪ (model_fields_set (deref l w')
       ∩ list_to_set (Field_model_fields E)).
Proof.
  intros Href Hres Hdom. unfold inline_field.
  rewrite Href, (resolve_definition_ref_truthy _ _ _ _ _ _ Hres), Hres.
  pose proof (for_field_name_set (deref l w') (Field_model_fields E)
                (setattr field "ref_obj" (VObj l)) Hdom) as Hset.
  destruct (for_field_name _ _ _) as [f1 r1]. cbn [fst] in *.
  by rewrite Hset.
Qed.

End MergedNames.

(** ** Errors of the collaborators *)

Section PassThrough.
Context (E : Env).

(** X20: what a collaborator raises while text is loaded, the schema is
    fetched, a remote definition is fetched or an object is built comes out
    of the resolver as it is: it is not logged and not turned into a
    [DataContractException], and the heap is as it was. *)
Theorem collaborator_errors_pass_through (e : exn) :
  (∀ location schema_location inline_definitions include_quality w,
     (if startswith location "http://" || startswith location "https://"
      then fetch_resource E location else read_file E location) = Raise e →
     resolve_data_contract_from_location E location schema_location
       inline_definitions include_quality w = (Raise e, w))
  ∧ (∀ text yaml schema_location inline_definitions include_quality w,
       yaml_safe_load E text = inr yaml →
       fetch_schema E schema_location = Raise e →
       resolve_data_contract_from_str E text schema_location
         inline_definitions include_quality w = (Raise e, w))
  ∧ (∀ text yaml schema schema_location inline_definitions include_quality w h,
       yaml_safe_load E text = inr yaml →
       fetch_schema E schema_location = Ok schema →
       fastjsonschema_validate E schema yaml = None →
       new_DataContractSpecification E yaml (heap w) = (Raise e, h) →
       resolve_data_contract_from_str E text schema_location
         inline_definitions include_quality w
       = (Raise e, {| heap := h;
                      log := log w ++ [("DEBUG", "YAML data is valid.")] |}))
  ∧ (∀ ref definitions w,
       startswith ref "http://" || startswith ref "https://" = true →
       fetch_resource E ref = Raise e →
       resolve_definition_ref E (VStr ref) definitions w = (Raise e, w))
  ∧ (∀ ref text yaml definitions w,
       startswith ref "http://" || startswith ref "https://" = true →
       fetch_resource E ref = Ok text →
       yaml_safe_load E text = inr yaml →
       new_Definition E yaml = Raise e →
       resolve_definition_ref E (VStr ref) definitions w = (Raise e, w)).
Proof.
  repeat split.
  - intros location sl inl iq w Hload.
    unfold resolve_data_contract_from_location, bind, lift. by rewrite Hload.
  - intros text yaml sl inl iq w Hyaml Hschema.
    unfold resolve_data_contract_from_str, to_yaml, validate, bind, lift, ret.
    by rewrite Hyaml, Hschema.
  - intros text yaml schema sl inl iq w h Hyaml Hschema Hvalid Hbuild.
    unfold resolve_data_contract_from_str, to_yaml, validate, bind, lift, ret,
      logging.
    rewrite Hyaml, Hschema, Hvalid. cbn [heap log]. by rewrite Hbuild.
  - intros ref definitions w Hurl Hfetch.
    unfold resolve_definition_ref, bind, lift. by rewrite Hurl, Hfetch.
  - intros ref text yaml definitions w Hurl Hfetch Hyaml Hnew.
    unfold resolve_definition_ref, to_yaml, bind, lift, ret.
    by rewrite Hurl, Hfetch, Hyaml, Hnew.
Qed.

(** X21: through the generic entry point the caller cannot ask for or
    refuse quality resolution, the kind of input decides.  A contract given
    as a string comes back with its quality block exactly as the
    constructor built it: no file reference in it is followed. *)
Theorem resolve_data_contract_str_keeps_quality (text : string)
    (data_contract : option DataContractSpecification)
    (schema_location : option string) (inline_definitions : option bool)
    (w w' : world) (spec : DataContractSpecification) :
  resolve_data_contract E None (Some text) data_contract schema_location
    inline_definitions w = (Ok spec, w') →
  ∃ yaml built h,
    yaml_safe_load E text = inr yaml
    ∧ new_DataContractSpecification E yaml (heap w) = (Ok built, h)
    ∧ quality spec = quality built.
Proof.
  unfold resolve_data_contract. intros H.
  apply resolve_data_contract_from_str_inv in H
    as (yaml & schema & built & h & inlined & Hyaml & _ & _ & Hbuild & Hinl
        & _ & _ & Hquality).
  exists yaml, built, h. split; [done |]. split; [done |].
  assert (quality inlined = quality built) as Hq.
  { destruct (default false (Some (default false inline_definitions))).
    - unfold inline_definitions_into_data_contract in Hinl.
      destruct (for_model E (definitions built) (models built) _)
        as [[ms r] w1].
      by injection Hinl as <- _ _.
    - by destruct Hinl as [-> _]. }
  rewrite Hq in Hquality. cbn [default from_option id] in Hquality.
  by destruct (quality built).
Qed.

End PassThrough.

Lemma resolve_data_contract_str_keeps_quality_witness :
  ∃ spec w',
    resolve_data_contract (Example.env []) None
      (Some "quality: {type: SodaCL, specification: {$ref: checks.yaml}}")
      None None (Some true) Example.empty_world = (Ok spec, w')
    ∧ ∃ yaml built h,
        yaml_safe_load (Example.env [])
          "quality: {type: SodaCL, specification: {$ref: checks.yaml}}"
        = inr yaml
        ∧ new_DataContractSpecification (Example.env []) yaml [] = (Ok built, h)
        ∧ quality spec = quality built.
Proof.
  eexists _, _.
  refine ((λ Hrun,
             conj Hrun
               (resolve_data_contract_str_keeps_quality (Example.env []) _ None
                  None (Some true) Example.empty_world _ _ Hrun)) _).
  vm_compute. reflexivity.
Defined.

Lemma inline_field_explicitly_set_witness :
  "type" ∈ model_fields_set
             (inline_field (Example.env []) Example.order_id_definitions
                Example.order_id_field Example.order_id_world).1.1
  ∧ "domain" ∉ model_fields_set
                 (inline_field (Example.env []) Example.order_id_definitions
                    Example.order_id_field Example.order_id_world).1.1.
Proof.
  rewrite (inline_field_explicitly_set (Example.env [])
             Example.order_id_definitions Example.order_id_field
             Example.order_id_world Example.order_id_world
             (VStr "#/definitions/order_id") 0).
  - split; apply (bool_decide_unpack _); vm_compute; exact I.
  - reflexivity.
  - vm_compute. reflexivity.
  - apply (bool_decide_unpack _). vm_compute. exact I.
Defined.

Lemma collaborator_errors_pass_through_witness :
  resolve_data_contract_from_location (Example.env []) "nowhere.yaml" None None
    None Example.empty_world
  = (Raise (ExternalError "FileNotFoundError" "nowhere.yaml"),
     Example.empty_world).
Proof.
  destruct (collaborator_errors_pass_through (Example.env [])
              (ExternalError "FileNotFoundError" "nowhere.yaml")) as [H _].
  apply H. reflexivity.
Defined.
